(** * groq-go: the chat-completion client of [groq/completion.go]

    A shallow embedding of [makeReq], [CreateChatCompletion] and
    [extractRetryTime], with the Go standard-library calls they make
    ([strconv.Atoi], [regexp.FindStringSubmatch], [http.Header.Get],
    [time.Sleep], [fmt.Println]) and the properties of the retry controller
    and of the retry-delay parser.

    Conventions.
    - Go's [int] is taken to be 64 bits wide (as on amd64 and arm64);
      [int] and [int64] are [Z] with the two's-complement wrap-around
      written out ([wrap_int]).
    - Go strings and byte slices are [string] (sequences of 8-bit bytes).
    - A nil pointer is [None]; dereferencing it is the outcome [Panic].
    - The network, the clock and standard output are an explicit [World]
      threaded through the calls. *)

From Stdlib Require Import ZArith Lia Ascii String.
From stdpp Require Import base tactics option list strings gmap.

Local Open Scope Z_scope.

(** ** Machine integers *)

Definition MaxInt : Z := 2 ^ 63 - 1.
Definition MinInt : Z := - 2 ^ 63.
Definition MaxUint64 : Z := 2 ^ 64 - 1.

(** Conversion of a mathematical integer to Go's 64-bit [int]. *)
Definition wrap_int (z : Z) : Z := (z + 2 ^ 63) mod 2 ^ 64 - 2 ^ 63.

(** Go's [a * b] on [int]. *)
Definition int_mul (a b : Z) : Z := wrap_int (a * b).

Definition in_int_range (z : Z) : Prop := MinInt <= z <= MaxInt.

(** ** Characters and strings *)

Definition isDigit (c : ascii) : bool :=
  let n := nat_of_ascii c in ((48 <=? n) && (n <=? 57))%nat.

Definition isLetter (c : ascii) : bool :=
  let n := nat_of_ascii c in
  (((97 <=? n) && (n <=? 122)) || ((65 <=? n) && (n <=? 90)))%nat.

Definition isUpper (c : ascii) : bool :=
  let n := nat_of_ascii c in ((65 <=? n) && (n <=? 90))%nat.

Definition digitVal (c : ascii) : Z := Z.of_nat (nat_of_ascii c) - 48.

Fixpoint string_forall (p : ascii -> bool) (s : string) : bool :=
  match s with
  | EmptyString => true
  | String c s' => p c && string_forall p s'
  end.

Fixpoint string_exists (p : ascii -> bool) (s : string) : bool :=
  match s with
  | EmptyString => false
  | String c s' => p c || string_exists p s'
  end.

(** The longest prefix of [s] whose characters satisfy [p], and the rest. *)
Fixpoint span (p : ascii -> bool) (s : string) : string * string :=
  match s with
  | EmptyString => (EmptyString, EmptyString)
  | String c s' =>
      if p c then let '(a, b) := span p s' in (String c a, b)
      else (EmptyString, s)
  end.

(** [strip_prefix p s] is [Some r] when [s = p +:+ r]. *)
Fixpoint strip_prefix (p s : string) : option string :=
  match p, s with
  | EmptyString, _ => Some s
  | String a p', String b s' =>
      if Ascii.eqb a b then strip_prefix p' s' else None
  | String _ _, EmptyString => None
  end.

(** The decimal value of a string of digits. *)
Fixpoint decimal_from (acc : Z) (s : string) : Z :=
  match s with
  | EmptyString => acc
  | String c s' => decimal_from (acc * 10 + digitVal c) s'
  end.

Definition decimal (s : string) : Z := decimal_from 0 s.

(** ** HTTP messages *)

(** [http.Header]: a map from canonical header names to their values. *)
Abbreviation Header := (gmap string (list string)).

Definition toUpper (c : ascii) : ascii :=
  let n := nat_of_ascii c in
  if ((97 <=? n) && (n <=? 122))%nat then ascii_of_nat (n - 32) else c.

Definition toLower (c : ascii) : ascii :=
  let n := nat_of_ascii c in
  if ((65 <=? n) && (n <=? 90))%nat then ascii_of_nat (n + 32) else c.

(** The bytes allowed in a header field name (RFC 7230 token). *)
Definition validHeaderFieldByte (c : ascii) : bool :=
  isLetter c || isDigit c || string_exists (Ascii.eqb c) "!#$%&'*+-.^_`|~".

Fixpoint canonicalize (upper : bool) (s : string) : string :=
  match s with
  | EmptyString => EmptyString
  | String c s' =>
      String (if upper then toUpper c else toLower c)
             (canonicalize (Ascii.eqb c "-") s')
  end.

(** [textproto.CanonicalMIMEHeaderKey]: the first letter and every letter
    after a hyphen in upper case, the others in lower case; a key with a
    byte that is not allowed in a field name is left as it is. *)
Definition CanonicalMIMEHeaderKey (key : string) : string :=
  if string_forall validHeaderFieldByte key then canonicalize true key
  else key.

(** [Header.Get]: the first value stored under the canonical form of the
    key, or the empty string. *)
Definition Header_Get (h : Header) (key : string) : string :=
  match h !! CanonicalMIMEHeaderKey key with
  | Some (v :: _) => v
  | _ => ""
  end.

(** [Header.Set]: the value replaces what is stored under the canonical
    form of the key. *)
Definition Header_Set (h : Header) (key value : string) : Header :=
  <[CanonicalMIMEHeaderKey key := [value]]> h.

(** [*http.Request] as [makeReq] builds it. *)
Record Request := {
  Method : string;
  URL : string;
  ReqHeader : Header;
  ReqBody : string
}.

(** [req.Header.Set(key, value)]. *)
Definition Request_Header_Set (key value : string) (r : Request) : Request :=
  {| Method := Method r; URL := URL r;
     ReqHeader := Header_Set (ReqHeader r) key value;
     ReqBody := ReqBody r |}.

(** [*http.Response]: the status line, the headers, and what [io.ReadAll]
    yields on the body (the bytes, or a read error). *)
Record Response := {
  StatusCode : Z;
  RespHeader : Header;
  Body : string + string
}.

Definition StatusOK : Z := 200.
Definition StatusTooManyRequests : Z := 429.

(** ** Payloads

    [Message] is declared in another file of the package; the values behind
    [interface{}] fields and [float64] are kept abstract. *)

Class GoTypes := {
  Message : Type;
  float64 : Type;
  any : Type
}.

Section Payloads.
Context {GT : GoTypes}.

Record ChatCompletionRequest := {
  Messages : list Message;
  Model : string;
  MaxTokens : Z;
  Temperature : float64;
  TopP : float64;
  NumChoices : Z;
  PresencePenalty : float64;
  FrequencyPenalty : option float64;
  UserID : string;
  Stream : bool;
  ToolChoice : any;
  Tools : any;
  FunctionCall : any;
  ResponseFormat : any;
  Seed : Z;
  StopSequences : any
}.

Record Choice := {
  Index : Z;
  ChoiceMessage : Message;
  Delta : Message;
  FinishReason : string
}.

Record Usage := {
  PromptTokens : Z;
  CompletionTokens : Z;
  TotalTokens : Z;
  PromptTime : float64;
  CompletionTime : float64;
  TotalTime : float64
}.

Record ChatCompletionResponse := {
  ID : string;
  Object : string;
  Created : Z;
  RespModel : string;
  SystemFingerprint : string;
  Choices : list Choice;
  RespUsage : Usage
}.

End Payloads.

Record ErrorResponse := {
  ErrorMessage : string;
  ErrorType : string;
  ErrorCode : string
}.

(** ** Errors

    One constructor per error value the file creates, carrying the
    arguments of its format string; an error of a library is its text. *)

Inductive NumErrorKind := ErrSyntax | ErrRange.

Inductive error :=
  (* "use CreateChatCompletionStream for streaming completions" *)
  | ErrUseStream
  (* "failed to marshal request: %v" *)
  | ErrMarshal (cause : string)
  (* "failed to create request: %v" *)
  | ErrCreateRequest (cause : string)
  (* "failed to send request: %v" *)
  | ErrSendRequest (cause : string)
  (* errors.Wrap(err, "failed to read response body") *)
  | ErrReadBody (cause : string)
  (* "retry is %d max retry :%d, code: %d, body: %s,response : %v" *)
  | ErrRetryExhausted (retry maxRetry code : Z) (body : string) (resp : Response)
  (* "invalid status code: %d, body: %s, Failed to unmarshall the error body, headers: %v" *)
  | ErrUnmarshalErrorBody (code : Z) (body : string) (resp : Response)
  (* "invalid status code: %d, body: %s, Failed to parse retry time" *)
  | ErrParseRetryTime (code : Z) (body : string)
  (* errors.Wrap(err, "failed to unmarshal response") *)
  | ErrUnmarshalResponse (cause : string)
  (* "retry time not found" *)
  | ErrRetryTimeNotFound
  (* "unknown time unit: %s" *)
  | ErrUnknownUnit (unit : string)
  (* *strconv.NumError{Func: "Atoi", Num: num, Err: kind} *)
  | NumError (num : string) (kind : NumErrorKind).

(** ** [strconv.Atoi]

    [ParseUint(s, 10, 64)]: the digits are scanned from the left; a byte
    that is not a digit is a syntax error, a value above [MaxUint64] a range
    error, whichever is met first. *)

Fixpoint ParseUint_from (n : Z) (s : string) : Z * option NumErrorKind :=
  match s with
  | EmptyString => (n, None)
  | String c s' =>
      if isDigit c then
        let n1 := n * 10 + digitVal c in
        if MaxUint64 <? n1 then (MaxUint64, Some ErrRange)
        else ParseUint_from n1 s'
      else (0, Some ErrSyntax)
  end.

Definition ParseUint (s : string) : Z * option NumErrorKind :=
  match s with
  | EmptyString => (0, Some ErrSyntax)
  | _ => ParseUint_from 0 s
  end.

(** [ParseInt(s, 10, 0)]: an optional sign, then [ParseUint]; a value out
    of the range of [int] is clamped and reported as a range error. *)
Definition ParseInt (s : string) : Z * option NumErrorKind :=
  match s with
  | EmptyString => (0, Some ErrSyntax)
  | String c0 rest =>
      let neg := Ascii.eqb c0 "-" in
      let s1 := if Ascii.eqb c0 "+" || neg then rest else s in
      match ParseUint s1 with
      | (_, Some ErrSyntax) => (0, Some ErrSyntax)
      | (un, _) =>
          let cutoff := 2 ^ 63 in
          if negb neg && (cutoff <=? un) then (cutoff - 1, Some ErrRange)
          else if neg && (cutoff <? un) then (- cutoff, Some ErrRange)
          else (if neg then - un else un, None)
      end
  end.

Definition Atoi (s : string) : Z * option error :=
  let '(i64, err) := ParseInt s in
  (i64, NumError s <$> err).

(** ** [regexp]: the pattern of [extractRetryTime]

    [re] is [Please try again in (\d+)([a-zA-Z]+)\.]: a literal, one or more
    digits (group 1), one or more ASCII letters (group 2), a literal dot.
    The three character classes are pairwise disjoint, so at a given start
    position both runs are the longest ones and nothing is left to
    backtracking. *)

Definition re_prefix : string := "Please try again in ".

(** A match of [re] anchored at the start of [s]: the matched text and the
    two groups. *)
Definition match_here (s : string) : option (list string) :=
  match strip_prefix re_prefix s with
  | None => None
  | Some r1 =>
      let '(ds, r2) := span isDigit r1 in
      let '(ls, r3) := span isLetter r2 in
      match ds, ls, r3 with
      | String _ _, String _ _, String "." _ =>
          Some [re_prefix +:+ ds +:+ ls +:+ "."; ds; ls]
      | _, _, _ => None
      end
  end.

(** [re.FindStringSubmatch]: the leftmost match with its groups, or nil. *)
Fixpoint FindStringSubmatch (s : string) : list string :=
  match match_here s with
  | Some m => m
  | None =>
      match s with
      | EmptyString => []
      | String _ s' => FindStringSubmatch s'
      end
  end.

(** ** [extractRetryTime] *)

Definition extractRetryTime (message : string) : Z * option error :=
  let matches := FindStringSubmatch message in
  if (length matches <? 3)%nat then (0, Some ErrRetryTimeNotFound)
  else
    let '(retryValue, err) := Atoi (default "" (matches !! 1%nat)) in
    match err with
    | Some e => (0, Some e)
    | None =>
        let unit := default "" (matches !! 2%nat) in
        if String.eqb unit "ms" then (retryValue, None)
        else if String.eqb unit "s" then (int_mul retryValue 1000, None)
        else if String.eqb unit "m" then
          (int_mul (int_mul retryValue 60) 1000, None)
        else if String.eqb unit "h" then
          (int_mul (int_mul (int_mul retryValue 60) 60) 1000, None)
        else (0, Some (ErrUnknownUnit unit))
    end.

Definition ExtractRetryTime (s : string) : Z * option error :=
  extractRetryTime s.

(** ** The world outside the client

    What the client does to the outside is a trace of events, oldest
    first: a request handed to the transport, a call of [time.Sleep] with
    its duration in nanoseconds, a line printed by [fmt.Println]. *)

Inductive LogLine :=
  (* "Retry after (ms):", retryMs *)
  | LogRetryAfter (retryMs : Z)
  (* "Retrying now..." *)
  | LogRetryingNow
  (* "skipping waiting as its disabled now..." *)
  | LogSkipWaiting.

Inductive Event :=
  | EvSend (r : Request)
  | EvSleep (d : Z)
  | EvPrint (l : LogLine).

Abbreviation World := (list Event).

Definition empty_world : World := [].

Definition sent (w : World) : list Request :=
  omap (fun e => match e with EvSend r => Some r | _ => None end) w.

Definition slept (w : World) : list Z :=
  omap (fun e => match e with EvSleep d => Some d | _ => None end) w.

Definition printed (w : World) : list LogLine :=
  omap (fun e => match e with EvPrint l => Some l | _ => None end) w.

(** [http.Client]: what the server answers to the [n]-th request of the
    run (counted from 0), or the error of the transport. *)
Definition HTTPClient : Type := nat -> Request -> Response + string.

Definition Do (t : HTTPClient) (r : Request) (w : World)
  : (Response + string) * World :=
  (t (length (sent w)) r, w ++ [EvSend r]).

(** [time.Duration] counts nanoseconds in an [int64]. *)
Definition Millisecond : Z := 1000000.
Definition Duration_mul (a b : Z) : Z := wrap_int (a * b).

Definition time_Sleep (d : Z) (w : World) : World := w ++ [EvSleep d].

Definition fmt_Println (l : LogLine) (w : World) : World := w ++ [EvPrint l].

(** ** The client *)

Definition baseURL : string := "https://api.groq.com/openai".

Record client := {
  apiKey : string;
  client_baseURL : string;
  httpClient : HTTPClient;
  max_wait_on_ratelimit_in_ms : Z;
  wait_on_ratelimit : bool
}.

Definition NewClient (apiKey : string) (httpClient : HTTPClient)
    (wait_on_ratelimit : bool) (max_wait_on_ratelimit_in_ms : Z) : client :=
  {| apiKey := apiKey;
     client_baseURL := baseURL;
     httpClient := httpClient;
     max_wait_on_ratelimit_in_ms := max_wait_on_ratelimit_in_ms;
     wait_on_ratelimit := wait_on_ratelimit |}.

(** The status code and body an error of the retry loop reports. *)
Definition error_reports (e : error) (code : Z) (body : string) : Prop :=
  match e with
  | ErrRetryExhausted _ _ code' body' _
  | ErrUnmarshalErrorBody code' body' _
  | ErrParseRetryTime code' body' => code' = code /\ body' = body
  | _ => False
  end.

(** What a Go function hands back: its results, or a run-time panic. *)
Inductive Outcome (A : Type) :=
  | Return (a : A)
  | Panic.
Arguments Return {A} a.
Arguments Panic {A}.

(** The library functions whose results the client only inspects:
    [json.Marshal] of a request, [url.Parse] inside [http.NewRequest], and
    [json.Unmarshal] into the two response types.  [inl] is the value,
    [inr] the text of the error. *)
Class Codec {GT : GoTypes} := {
  json_Marshal : ChatCompletionRequest -> string + string;
  url_Parse : string -> string + string;
  json_Unmarshal_ErrorResponse : string -> ErrorResponse + string;
  json_Unmarshal_ChatCompletionResponse :
    string -> ChatCompletionResponse + string
}.

Section Client.
Context {GT : GoTypes} {CD : Codec}.

(** [http.NewRequest] with the valid method [POST]: fails when the URL does
    not parse. *)
Definition http_NewRequest (method url body : string) : Request + string :=
  match url_Parse url with
  | inr e => inr e
  | inl u => inl {| Method := method; URL := u; ReqHeader := ∅; ReqBody := body |}
  end.

(** [makeReq] returns the triple of a [*http.Response] (nil is [None]), the
    bytes of the body and an [error] (nil is [None]). *)
Definition makeReq (c : client) (req : ChatCompletionRequest) (w : World)
  : (option Response * string * option error) * World :=
  if Stream req then ((None, "", Some ErrUseStream), w)
  else
    let url := client_baseURL c +:+ "/v1/chat/completions" in
    match json_Marshal req with
    | inr e => ((None, "", Some (ErrMarshal e)), w)
    | inl jsonData =>
        match http_NewRequest "POST" url jsonData with
        | inr e => ((None, "", Some (ErrCreateRequest e)), w)
        | inl httpReq =>
            let httpReq :=
              Request_Header_Set "Content-Type" "application/json" httpReq in
            let httpReq :=
              Request_Header_Set "Authorization" ("Bearer " +:+ apiKey c) httpReq in
            let '(res, w) := Do (httpClient c) httpReq w in
            match res with
            | inr e => ((None, "", Some (ErrSendRequest e)), w)
            | inl resp =>
                match Body resp with
                | inr e => ((None, "", Some (ErrReadBody e)), w)
                | inl body => ((Some resp, body, None), w)
                end
            end
        end
    end.

Definition maxRetry : Z := 5.

Abbreviation Result := (option ChatCompletionResponse * option error)%type.

(** Where control is after a piece of [CreateChatCompletion]: at the next
    test of the loop with the values of [retry], [resp] and [body], or out
    of the function. *)
Inductive Flow :=
  | Next (retry : Z) (resp : option Response) (body : string)
  | Done (o : Outcome Result).

(** The body of the [for] loop, entered with [resp] pointing to [r].
    [retrys, err := strconv.Atoi(...)] declares a new [err] in the scope of
    the body; the [makeReq] of the waiting branch assigns that one, and the
    test after the branches reads it. *)
Definition retry_body (c : client) (req : ChatCompletionRequest)
    (retry : Z) (r : Response) (body : string) (w : World) : Flow * World :=
  let retry := retry + 1 in
  if maxRetry <? retry then
    (Done (Return (None, Some (ErrRetryExhausted retry maxRetry (StatusCode r) body r))), w)
  else
    match json_Unmarshal_ErrorResponse body with
    | inr _ =>
        (Done (Return (None, Some (ErrUnmarshalErrorBody (StatusCode r) body r))), w)
    | inl _ =>
        let '(retrys, err) := Atoi (Header_Get (RespHeader r) "retry-after") in
        let retryMs := int_mul retrys 1000 in
        if wait_on_ratelimit c then
          let w := fmt_Println (LogRetryAfter retryMs) w in
          let retryMs :=
            if max_wait_on_ratelimit_in_ms c <? retryMs
            then max_wait_on_ratelimit_in_ms c else retryMs in
          let w := time_Sleep (Duration_mul retryMs Millisecond) w in
          let w := fmt_Println LogRetryingNow w in
          let '((resp', body', err'), w) := makeReq c req w in
          match err' with
          | Some _ =>
              match resp' with
              | None => (Done Panic, w)
              | Some r' =>
                  (Done (Return (None, Some (ErrParseRetryTime (StatusCode r') body'))), w)
              end
          | None => (Next retry resp' body', w)
          end
        else
          let w := fmt_Println LogSkipWaiting w in
          match err with
          | Some _ =>
              (Done (Return (None, Some (ErrParseRetryTime (StatusCode r) body))), w)
          | None => (Next retry (Some r) body, w)
          end
    end.

(** The [for] loop; [fuel] bounds the number of times the body is entered,
    and [None] means that the bound was too small. *)
Fixpoint retry_loop (fuel : nat) (c : client) (req : ChatCompletionRequest)
    (retry : Z) (resp : option Response) (body : string) (w : World)
  : option (Flow * World) :=
  match resp with
  | None => Some (Done Panic, w)
  | Some r =>
      if (StatusCode r =? StatusTooManyRequests) && (retry <=? maxRetry) then
        match fuel with
        | O => None
        | S fuel' =>
            match retry_body c req retry r body w with
            | (Next retry' resp' body', w') =>
                retry_loop fuel' c req retry' resp' body' w'
            | (Done o, w') => Some (Done o, w')
            end
        end
      else Some (Next retry resp body, w)
  end.

Definition CreateChatCompletion (c : client) (req : ChatCompletionRequest)
    (w : World) : option (Outcome Result * World) :=
  let '((resp, body, _), w) := makeReq c req w in
  match resp with
  | None => Some (Panic, w)
  | Some r =>
      let after :=
        if negb (StatusCode r =? StatusOK)
        then retry_loop (Z.to_nat (maxRetry + 1)) c req 0 resp body w
        else Some (Next 0 resp body, w) in
      match after with
      | None => None
      | Some (Done o, w) => Some (o, w)
      | Some (Next _ _ body, w) =>
          match json_Unmarshal_ChatCompletionResponse body with
          | inr e => Some (Return (None, Some (ErrUnmarshalResponse e)), w)
          | inl chatResp => Some (Return (Some chatResp, None), w)
          end
      end
  end.

(** ** What the properties of the client are stated with *)

(** [hr] is the request [makeReq] hands to the transport for [req]. *)
Definition encoded (c : client) (req : ChatCompletionRequest) (hr : Request)
  : Prop :=
  Stream req = false /\
  exists jsonData u,
    json_Marshal req = inl jsonData /\
    url_Parse (client_baseURL c +:+ "/v1/chat/completions") = inl u /\
    hr = {| Method := "POST"; URL := u;
            ReqHeader := {[ "Content-Type" := ["application/json"];
                            "Authorization" := ["Bearer " +:+ apiKey c] ]};
            ReqBody := jsonData |}.

(** The server answers the [n]-th request with [r], whose body reads as
    [body]. *)
Definition answers (c : client) (hr : Request) (n : nat) (r : Response)
    (body : string) : Prop :=
  httpClient c n hr = inl r /\ Body r = inl body.

(** A rate-limit answer the loop can act on. *)
Definition rate_limited (r : Response) (body : string) : Prop :=
  StatusCode r = StatusTooManyRequests /\
  exists e, json_Unmarshal_ErrorResponse body = inl e.

(** A run against a scripted server: [a i] is the answer to the [i]-th
    request and the bytes read from its body. *)
Definition script_answers (c : client) (hr : Request)
    (a : nat -> Response * string) (k : nat) : Prop :=
  forall i, (i <= k)%nat -> answers c hr i (a i).1 (a i).2.

Definition script_limited (a : nat -> Response * string) (k : nat) : Prop :=
  forall i, (i < k)%nat -> rate_limited (a i).1 (a i).2.

(** The first [k] answers of the script. *)
Definition answered (a : nat -> Response * string) (k : nat) : list Response :=
  (fun i => (a i).1) <$> seq 0 k.

(** What the function returns after the loop, from the body it holds. *)
Definition decode_result (body : string) : Result :=
  match json_Unmarshal_ChatCompletionResponse body with
  | inl chatResp => (Some chatResp, None)
  | inr e => (None, Some (ErrUnmarshalResponse e))
  end.

(** The answers a run waited after: [rs !! i] answered the [i]-th request
    with a 429. *)
Definition limited_prefix (c : client) (hr : Request) (rs : list Response)
  : Prop :=
  forall i x, rs !! i = Some x ->
    httpClient c i hr = inl x /\ StatusCode x = StatusTooManyRequests.

(** How a call ends when its last request was the [n]-th: a panic when
    that request got no readable answer; otherwise the decoded body of an
    answer that is not a 429, or an error that reports a 429 answer. *)
Definition outcome_of (c : client) (hr : Request) (n : nat)
    (o : Outcome Result) : Prop :=
  match o with
  | Panic => forall r body, ~ answers c hr n r body
  | Return res =>
      exists r body,
        answers c hr n r body /\
        ((StatusCode r <> StatusTooManyRequests /\ res = decode_result body) \/
         (StatusCode r = StatusTooManyRequests /\
          exists e, res = (None, Some e) /\ error_reports e 429 body))
  end.

End Client.

(** ** What the properties are stated with *)

(** [message] is [pre], then a match of [re] with groups [ds] and [unit],
    then [post]. *)
Definition match_at (message pre ds unit post : string) : Prop :=
  message = pre +:+ re_prefix +:+ ds +:+ unit +:+ "." +:+ post /\
  ds <> "" /\ string_forall isDigit ds = true /\
  unit <> "" /\ string_forall isLetter unit = true.

Definition contains_match (message : string) : Prop :=
  exists pre ds unit post, match_at message pre ds unit post.

(** The match that starts first, the one [FindStringSubmatch] reports. *)
Definition leftmost_match (message pre ds unit post : string) : Prop :=
  match_at message pre ds unit post /\
  forall pre' ds' unit' post',
    match_at message pre' ds' unit' post' ->
    (String.length pre <= String.length pre')%nat.

(** [s] is empty or starts with a character outside [p]. *)
Definition stops (p : ascii -> bool) (s : string) : Prop :=
  match s with
  | EmptyString => True
  | String c _ => p c = false
  end.

(** No match of [re] starts at any of the first [n] positions of [s]. *)
Fixpoint no_match_before (n : nat) (s : string) : bool :=
  match n with
  | O => true
  | S n' =>
      match match_here s, s with
      | Some _, _ => false
      | None, EmptyString => true
      | None, String _ s' => no_match_before n' s'
      end
  end.

(** Milliseconds per unit, for the four units of the [switch]. *)
Definition unit_factor (unit : string) : option Z :=
  if String.eqb unit "ms" then Some 1
  else if String.eqb unit "s" then Some 1000
  else if String.eqb unit "m" then Some 60000
  else if String.eqb unit "h" then Some 3600000
  else None.

(** A header name with its letters in lower case: two names are the same
    up to the case of their letters when they agree in this form. *)
Fixpoint lower_case (s : string) : string :=
  match s with
  | EmptyString => EmptyString
  | String c s' => String (toLower c) (lower_case s')
  end.

(** The events of one round of waiting after the rate-limit answer [r]:
    the wait is the smaller of the header's delay and the client's
    ceiling. *)
Definition waiting_round (c : client) (hr : Request) (r : Response)
  : list Event :=
  let retryMs :=
    int_mul (fst (Atoi (Header_Get (RespHeader r) "retry-after"))) 1000 in
  [EvPrint (LogRetryAfter retryMs);
   EvSleep (Duration_mul (Z.min retryMs (max_wait_on_ratelimit_in_ms c)) Millisecond);
   EvPrint LogRetryingNow;
   EvSend hr].

(** The trace of a run that sent [hr] and waited after each answer of
    [rs]. *)
Definition run_trace (c : client) (hr : Request) (rs : list Response)
  : World :=
  EvSend hr :: concat (waiting_round c hr <$> rs).

(** ** Sample collaborators, used to run the client on concrete inputs *)

Module Sample.

Definition types : GoTypes :=
  {| Message := string; float64 := Z; any := bool |}.

(** The double quote, which a string literal cannot hold. *)
Definition dquote : string := String "034"%char EmptyString.

Definition quoted (s : string) : string := dquote +:+ s +:+ dquote.

(** A codec that agrees with [encoding/json] on the inputs of the sample
    runs.  A request with only [Messages] and [Model] set is encoded with
    these two fields (the others are empty and omitted); a marked
    [ToolChoice] stands for a value [json.Marshal] has no encoding for,
    such as a channel.  The sample answers have two bodies: [{}], which
    decodes to the zero value of either response type, and [<html>], which
    is not JSON and is refused with the error [encoding/json] gives for a
    text that begins with [<].  No other body is used; the codec refuses
    them in the same way. *)
Definition codec : @Codec types :=
  {| json_Marshal := fun req : @ChatCompletionRequest types =>
       if ToolChoice req then inr "json: unsupported type: chan int"
       else inl ("{" +:+ quoted "messages" +:+ ":[" +:+
                 String.concat "," (quoted <$> (Messages req : list string)) +:+
                 "]," +:+ quoted "model" +:+ ":" +:+ quoted (Model req) +:+ "}");
     url_Parse := fun u => inl u;
     json_Unmarshal_ErrorResponse := fun body =>
       if String.eqb body "{}"
       then inl {| ErrorMessage := ""; ErrorType := ""; ErrorCode := "" |}
       else inr "invalid character '<' looking for beginning of value";
     json_Unmarshal_ChatCompletionResponse := fun body =>
       if String.eqb body "{}"
       then inl (@Build_ChatCompletionResponse types "" "" 0 "" "" []
                   (@Build_Usage types 0 0 0 0 0 0))
       else inr "invalid character '<' looking for beginning of value" |}.

Definition request (stream unencodable : bool) : @ChatCompletionRequest types :=
  @Build_ChatCompletionRequest types
    ["hello"] "llama3-8b-8192" 0 0 0 0 0 None "" stream
    unencodable false false false 0 false.

Definition limited_response (retry_after body : string) : Response :=
  {| StatusCode := 429;
     RespHeader := {[ "Retry-After" := [retry_after] ]};
     Body := inl body |}.

Definition ok_response (body : string) : Response :=
  {| StatusCode := 200; RespHeader := ∅; Body := inl body |}.

(** A server that always answers 429. *)
Definition always_limited (retry_after body : string) : HTTPClient :=
  fun _ _ => inl (limited_response retry_after body).

(** A server that answers 429 to the first [k] requests and 200 afterwards. *)
Definition limited_then_ok (k : nat) (retry_after : string) : HTTPClient :=
  fun n _ =>
    if (n <? k)%nat then inl (limited_response retry_after "{}")
    else inl (ok_response "{}").

(** A connection that fails from the [k]-th request on. *)
Definition refused_from (k : nat) : HTTPClient :=
  fun n _ =>
    if (n <? k)%nat then inl (limited_response "1" "{}")
    else inr "dial tcp: connection refused".

(** An answer with the given status and no header. *)
Definition status_response (code : Z) (body : string) : Response :=
  {| StatusCode := code; RespHeader := ∅; Body := inl body |}.

(** An answer whose body cannot be read to the end. *)
Definition unreadable_response : Response :=
  {| StatusCode := 200; RespHeader := ∅; Body := inr "unexpected EOF" |}.

Definition client_with (t : HTTPClient) (wait : bool) (maxMs : Z) : client :=
  NewClient "gsk_key" t wait maxMs.

(** The request on the wire for [request false false]. *)
Definition wire : Request :=
  {| Method := "POST";
     URL := "https://api.groq.com/openai/v1/chat/completions";
     ReqHeader := {[ "Content-Type" := ["application/json"];
                     "Authorization" := ["Bearer gsk_key"] ]};
     ReqBody := "{" +:+ quoted "messages" +:+ ":[" +:+ quoted "hello" +:+ "]," +:+
                quoted "model" +:+ ":" +:+ quoted "llama3-8b-8192" +:+ "}" |}.

(** A run of the client with the sample codec, from the empty trace. *)
Definition run (c : client) (req : @ChatCompletionRequest types)
  : option (Outcome (option (@ChatCompletionResponse types) * option error) * World) :=
  @CreateChatCompletion types codec c req empty_world.

End Sample.

(** * Properties *)

(** ** The library functions on sample inputs *)

Example Atoi_samples :
  Atoi "42" = (42, None) /\
  Atoi "+12" = (12, None) /\
  Atoi "-9223372036854775808" = (MinInt, None) /\
  Atoi "9223372036854775808" = (MaxInt, Some (NumError "9223372036854775808" ErrRange)) /\
  Atoi "" = (0, Some (NumError "" ErrSyntax)) /\
  Atoi "1.5" = (0, Some (NumError "1.5" ErrSyntax)).
Proof. by vm_compute. Qed.

Example CanonicalMIMEHeaderKey_samples :
  CanonicalMIMEHeaderKey "retry-after" = "Retry-After" /\
  CanonicalMIMEHeaderKey "RETRY-AFTER" = "Retry-After" /\
  CanonicalMIMEHeaderKey "retry after" = "retry after".
Proof. by vm_compute. Qed.

Example FindStringSubmatch_samples :
  FindStringSubmatch "Rate limit reached. Please try again in 7s. Thanks"
  = ["Please try again in 7s."; "7"; "s"] /\
  FindStringSubmatch "Please try again in 7.66s." = [] /\
  FindStringSubmatch "Please try again in s." = [].
Proof. by vm_compute. Qed.

Example extractRetryTime_samples :
  extractRetryTime "Please try again in 250ms." = (250, None) /\
  extractRetryTime "Please try again in 2h." = (7200000, None) /\
  extractRetryTime "Please try again in 3d." = (0, Some (ErrUnknownUnit "d")) /\
  extractRetryTime "try again later" = (0, Some ErrRetryTimeNotFound).
Proof. by vm_compute. Qed.

(** ** Strings *)

Lemma string_app_cons (x : ascii) (a b : string) :
  String x a +:+ b = String x (a +:+ b).
Proof. reflexivity. Qed.

Lemma string_app_nil_l (a : string) : "" +:+ a = a.
Proof. reflexivity. Qed.

Lemma string_app_assoc (a b c : string) : (a +:+ b) +:+ c = a +:+ b +:+ c.
Proof.
  induction a as [|x a IH]; [reflexivity|].
  by rewrite !string_app_cons, IH.
Qed.

Lemma string_app_length (a b : string) :
  String.length (a +:+ b) = (String.length a + String.length b)%nat.
Proof.
  induction a as [|x a IH]; [reflexivity|].
  rewrite string_app_cons. cbn. by rewrite IH.
Qed.

Lemma strip_prefix_app (p r : string) : strip_prefix p (p +:+ r) = Some r.
Proof.
  induction p as [|x p IH]; [by destruct r|].
  rewrite string_app_cons. cbn. by rewrite Ascii.eqb_refl.
Qed.

Lemma strip_prefix_Some (p s r : string) :
  strip_prefix p s = Some r -> s = p +:+ r.
Proof.
  revert s. induction p as [|x p IH]; intros s; cbn.
  - intros [= ->]. reflexivity.
  - destruct s as [|y s]; [discriminate|].
    destruct (Ascii.eqb_spec x y) as [->|]; [|discriminate].
    intros H. by rewrite (IH _ H).
Qed.

(** [span] on a run of [p]-characters followed by a string that does not
    start with one. *)
Lemma span_app (p : ascii -> bool) (a b : string) :
  string_forall p a = true -> stops p b -> span p (a +:+ b) = (a, b).
Proof.
  intros Ha Hb. induction a as [|x a IH].
  - rewrite string_app_nil_l.
    destruct b as [|y b]; cbn in *; [reflexivity | by rewrite Hb].
  - rewrite string_app_cons. cbn in *.
    apply andb_prop in Ha as [-> Ha]. by rewrite (IH Ha).
Qed.

Lemma span_spec (p : ascii -> bool) (s a b : string) :
  span p s = (a, b) -> s = a +:+ b /\ string_forall p a = true /\ stops p b.
Proof.
  revert a b. induction s as [|x s IH]; cbn; intros a b H.
  - by inversion H.
  - destruct (p x) eqn:Hx.
    + destruct (span p s) as [a' b'] eqn:Hs. inversion H; subst.
      destruct (IH _ _ eq_refl) as (-> & Ha & Hb).
      rewrite string_app_cons. cbn. by rewrite Hx, Ha.
    + inversion H; subst. cbn. by rewrite Hx.
Qed.

Lemma digit_not_letter (c : ascii) : isDigit c = true -> isLetter c = false.
Proof. by destruct c as [[] [] [] [] [] [] [] []]. Qed.

Lemma letter_not_digit (c : ascii) : isLetter c = true -> isDigit c = false.
Proof. by destruct c as [[] [] [] [] [] [] [] []]. Qed.

Lemma dot_not_letter : isLetter "." = false.
Proof. reflexivity. Qed.

(** ** The matcher finds the leftmost match of the pattern *)

Lemma match_here_complete (ds unit post : string) :
  ds <> "" -> string_forall isDigit ds = true ->
  unit <> "" -> string_forall isLetter unit = true ->
  match_here (re_prefix +:+ ds +:+ unit +:+ "." +:+ post)
  = Some [re_prefix +:+ ds +:+ unit +:+ "."; ds; unit].
Proof.
  intros Hds Hd Hunit Hl. unfold match_here.
  rewrite strip_prefix_app.
  rewrite (span_app isDigit ds); [|done|].
  2:{ destruct unit as [|c unit]; [done|]. rewrite string_app_cons. cbn in *.
      apply andb_prop in Hl as [Hc _]. by apply letter_not_digit. }
  rewrite (span_app isLetter unit); [|done|by cbn].
  destruct ds; [done|]. destruct unit; [done|]. reflexivity.
Qed.

Lemma match_here_sound (s : string) (m : list string) :
  match_here s = Some m ->
  exists ds unit post,
    match_at s "" ds unit post /\
    m = [re_prefix +:+ ds +:+ unit +:+ "."; ds; unit].
Proof.
  unfold match_here. intros H.
  destruct (strip_prefix re_prefix s) as [r1|] eqn:Hp; [|discriminate].
  apply strip_prefix_Some in Hp.
  destruct (span isDigit r1) as [ds r2] eqn:Hd.
  destruct (span isLetter r2) as [ls r3] eqn:Hl.
  apply span_spec in Hd as (-> & Hds & _).
  apply span_spec in Hl as (-> & Hls & _).
  destruct ds as [|d ds]; [discriminate|].
  destruct ls as [|l ls]; [discriminate|].
  destruct r3 as [|c post]; [discriminate|].
  destruct (Ascii.eqb_spec c ".") as [->|Hc].
  - injection H as <-. exists (String d ds), (String l ls), post.
    split; [|reflexivity]. subst s. by repeat split.
  - exfalso. revert H.
    by destruct c as [[] [] [] [] [] [] [] []].
Qed.

Lemma match_at_here (s ds unit post : string) :
  match_at s "" ds unit post ->
  match_here s = Some [re_prefix +:+ ds +:+ unit +:+ "."; ds; unit].
Proof.
  intros (-> & Hds & Hd & Hu & Hl). rewrite string_app_nil_l.
  by apply match_here_complete.
Qed.

Lemma match_at_cons (c : ascii) (s pre ds unit post : string) :
  match_at s pre ds unit post <->
  match_at (String c s) (String c pre) ds unit post.
Proof.
  unfold match_at. rewrite (string_app_cons c pre).
  split; intros (H & ?); (split; [|done]); congruence.
Qed.

(** A match that does not start at the first byte starts in the tail. *)
Lemma match_at_tail (s pre ds unit post : string) :
  match_here s = None ->
  match_at s pre ds unit post ->
  exists c s' pre',
    s = String c s' /\ pre = String c pre' /\ match_at s' pre' ds unit post.
Proof.
  intros Hnone H. destruct pre as [|c pre'].
  - apply match_at_here in H. congruence.
  - pose proof H as (Hs & _). rewrite (string_app_cons c pre') in Hs.
    exists c, (pre' +:+ re_prefix +:+ ds +:+ unit +:+ "." +:+ post), pre'.
    split; [done|]. split; [done|]. apply (match_at_cons c). by rewrite <- Hs.
Qed.

Lemma FindStringSubmatch_spec (s : string) :
  (FindStringSubmatch s = [] /\ ~ contains_match s) \/
  (exists pre ds unit post,
     leftmost_match s pre ds unit post /\
     FindStringSubmatch s = [re_prefix +:+ ds +:+ unit +:+ "."; ds; unit]).
Proof.
  induction s as [|c s IH].
  - destruct (match_here "") as [m|] eqn:Hm; [discriminate|].
    left. split; [reflexivity|].
    intros (pre & ds & unit & post & H).
    by destruct (match_at_tail _ _ _ _ _ Hm H) as (? & ? & ? & ? & _).
  - cbn [FindStringSubmatch].
    destruct (match_here (String c s)) as [m|] eqn:Hm.
    + right. destruct (match_here_sound _ _ Hm) as (ds & unit & post & H & ->).
      exists "", ds, unit, post. split; [|reflexivity].
      split; [done|]. intros. cbn. lia.
    + destruct IH as [[IH1 IH2]|(pre & ds & unit & post & [IH1 IH2] & IH3)].
      * left. split; [done|]. intros (pre & ds & unit & post & H).
        destruct (match_at_tail _ _ _ _ _ Hm H) as (c' & s' & pre' & Hs & -> & H').
        injection Hs as <- <-. apply IH2. by exists pre', ds, unit, post.
      * right. exists (String c pre), ds, unit, post. split; [|done].
        split; [by apply match_at_cons|].
        intros pre2 ds2 unit2 post2 H.
        destruct (match_at_tail _ _ _ _ _ Hm H) as (c' & s' & pre' & Hs & -> & H').
        injection Hs as <- <-. cbn. apply IH2 in H'. lia.
Qed.

Lemma string_app_inv_length (a b a' b' : string) :
  a +:+ b = a' +:+ b' -> String.length a = String.length a' ->
  a = a' /\ b = b'.
Proof.
  revert a'. induction a as [|x a IH]; intros [|y a']; cbn; try discriminate.
  - by rewrite !string_app_nil_l.
  - rewrite !string_app_cons. intros [= -> H] [= Hlen].
    by destruct (IH _ H Hlen) as [-> ->].
Qed.

(** The leftmost match is the one reported. *)
Lemma FindStringSubmatch_leftmost (s pre ds unit post : string) :
  leftmost_match s pre ds unit post ->
  FindStringSubmatch s = [re_prefix +:+ ds +:+ unit +:+ "."; ds; unit].
Proof.
  intros [H Hmin].
  destruct (FindStringSubmatch_spec s)
    as [[_ Hno]|(pre' & ds' & unit' & post' & [H' Hmin'] & ->)].
  { exfalso. apply Hno. by exists pre, ds, unit, post. }
  pose proof (Hmin _ _ _ _ H'). pose proof (Hmin' _ _ _ _ H).
  pose proof H as (Hs & Hr). pose proof H' as (Hs' & Hr').
  rewrite Hs in Hs'.
  apply string_app_inv_length in Hs' as [<- Hrest]; [|lia].
  assert (match_at (re_prefix +:+ ds +:+ unit +:+ "." +:+ post) "" ds unit post)
    as M1 by (split; [by rewrite string_app_nil_l | done]).
  assert (match_at (re_prefix +:+ ds +:+ unit +:+ "." +:+ post) "" ds' unit' post')
    as M2 by (split; [by rewrite string_app_nil_l | done]).
  apply match_at_here in M1, M2. congruence.
Qed.

(** ** [Atoi] on a string of digits, and products that fit in an [int] *)

Lemma digitVal_range (c : ascii) : isDigit c = true -> 0 <= digitVal c <= 9.
Proof.
  destruct c as [[] [] [] [] [] [] [] []]; intros H; vm_compute in H;
    try discriminate H; vm_compute; split; discriminate.
Qed.

Lemma decimal_from_ge (s : string) (n : Z) :
  string_forall isDigit s = true -> 0 <= n -> n <= decimal_from n s.
Proof.
  revert n. induction s as [|c s IH]; cbn; intros n H Hn; [lia|].
  apply andb_prop in H as [Hc Hs]. apply digitVal_range in Hc.
  etrans; [|apply IH]; [lia | done | lia].
Qed.

Lemma ParseUint_from_digits (s : string) (n : Z) :
  string_forall isDigit s = true -> 0 <= n <= MaxUint64 ->
  ParseUint_from n s =
    if decimal_from n s <=? MaxUint64 then (decimal_from n s, None)
    else (MaxUint64, Some ErrRange).
Proof.
  revert n.
  induction s as [|c s IH]; cbn [ParseUint_from decimal_from string_forall];
    intros n H Hn.
  - destruct (Z.leb_spec n MaxUint64); [reflexivity | lia].
  - apply andb_prop in H as [Hc Hs]. rewrite Hc.
    pose proof (digitVal_range _ Hc).
    destruct (Z.ltb_spec MaxUint64 (n * 10 + digitVal c)) as [Hbig|Hsmall].
    + pose proof (decimal_from_ge s (n * 10 + digitVal c) Hs).
      destruct (Z.leb_spec (decimal_from (n * 10 + digitVal c) s) MaxUint64);
        [lia | reflexivity].
    + apply IH; [done | lia].
Qed.

Lemma Atoi_digits (ds : string) :
  ds <> "" -> string_forall isDigit ds = true ->
  Atoi ds =
    if decimal ds <=? MaxInt then (decimal ds, None)
    else (MaxInt, Some (NumError ds ErrRange)).
Proof.
  intros Hne Hd. destruct ds as [|c0 rest]; [done|].
  unfold Atoi, ParseInt.
  assert (Ascii.eqb c0 "-" = false /\ Ascii.eqb c0 "+" = false) as [-> ->].
  { cbn in Hd. apply andb_prop in Hd as [Hc _]. revert Hc.
    by destruct c0 as [[] [] [] [] [] [] [] []]. }
  cbn [orb negb andb]. unfold ParseUint.
  rewrite ParseUint_from_digits; [|done|by vm_compute].
  fold (decimal (String c0 rest)).
  pose proof (decimal_from_ge (String c0 rest) 0 Hd ltac:(lia)) as Hge.
  fold (decimal (String c0 rest)) in Hge.
  set (v := decimal (String c0 rest)) in *.
  assert (MaxInt = 2 ^ 63 - 1) as HM by reflexivity.
  assert (MaxUint64 = 2 ^ 64 - 1) as HU by reflexivity.
  destruct (Z.leb_spec v MaxUint64); cbn [fst snd].
  - destruct (Z.leb_spec (2 ^ 63) v), (Z.leb_spec v MaxInt); try lia; reflexivity.
  - destruct (Z.leb_spec (2 ^ 63) MaxUint64), (Z.leb_spec v MaxInt); try lia.
    reflexivity.
Qed.

Lemma wrap_int_small (z : Z) : in_int_range z -> wrap_int z = z.
Proof.
  unfold in_int_range, MinInt, MaxInt, wrap_int. intros H.
  rewrite Z.mod_small; lia.
Qed.

Lemma wrap_int_mul_l (a b : Z) : wrap_int (wrap_int a * b) = wrap_int (a * b).
Proof.
  unfold wrap_int. f_equal.
  rewrite (Z.mod_eq (a + 2 ^ 63) (2 ^ 64)) by lia.
  replace ((a + 2 ^ 63 - 2 ^ 64 * ((a + 2 ^ 63) / 2 ^ 64) - 2 ^ 63) * b + 2 ^ 63)
    with (a * b + 2 ^ 63 + (- ((a + 2 ^ 63) / 2 ^ 64) * b) * 2 ^ 64) by ring.
  apply Z.mod_add. lia.
Qed.

(** The multiplications of the [switch], as one product. *)
Lemma int_mul_chain (v : Z) :
  int_mul v 1000 = wrap_int (v * 1000) /\
  int_mul (int_mul v 60) 1000 = wrap_int (v * 60000) /\
  int_mul (int_mul (int_mul v 60) 60) 1000 = wrap_int (v * 3600000).
Proof.
  unfold int_mul. rewrite !wrap_int_mul_l.
  split; [reflexivity|]. split; [apply (f_equal wrap_int); ring|].
  rewrite <- Z.mul_assoc, wrap_int_mul_l. apply (f_equal wrap_int); ring.
Qed.

(** ** The retry-delay parser *)

Lemma decimal_nonneg (ds : string) :
  string_forall isDigit ds = true -> 0 <= decimal ds.
Proof. intros H. by apply (decimal_from_ge ds 0). Qed.

Lemma unit_factor_pos (unit : string) (k : Z) :
  unit_factor unit = Some k -> 1 <= k <= 3600000.
Proof.
  unfold unit_factor.
  repeat (case String.eqb; [intros [= <-]; lia|]). discriminate.
Qed.

(** What [extractRetryTime] computes from the leftmost match. *)
Lemma extractRetryTime_leftmost (message pre ds unit post : string) :
  leftmost_match message pre ds unit post ->
  extractRetryTime message =
    if decimal ds <=? MaxInt then
      match unit_factor unit with
      | Some k => (wrap_int (decimal ds * k), None)
      | None => (0, Some (ErrUnknownUnit unit))
      end
    else (0, Some (NumError ds ErrRange)).
Proof.
  intros H. pose proof H as [(_ & Hne & Hd & _) _].
  unfold extractRetryTime. rewrite (FindStringSubmatch_leftmost _ _ _ _ _ H).
  cbn [length Nat.ltb Nat.leb lookup list_lookup default from_option].
  unfold id.
  rewrite (Atoi_digits ds Hne Hd).
  pose proof (decimal_nonneg ds Hd).
  destruct (Z.leb_spec (decimal ds) MaxInt) as [Hfit|]; [|reflexivity].
  destruct (int_mul_chain (decimal ds)) as (-> & -> & ->).
  unfold unit_factor.
  repeat (case String.eqb; [try reflexivity|]); [|reflexivity].
  rewrite Z.mul_1_r, wrap_int_small; [reflexivity|].
  unfold in_int_range, MinInt. lia.
Qed.

Lemma unit_factor_table (unit : string) (k : Z) :
  unit_factor unit = Some k <->
  (unit = "ms" /\ k = 1) \/ (unit = "s" /\ k = 1000) \/
  (unit = "m" /\ k = 60000) \/ (unit = "h" /\ k = 3600000).
Proof.
  unfold unit_factor. split.
  - destruct (String.eqb_spec unit "ms") as [->|?]; [intros [= <-]; naive_solver|].
    destruct (String.eqb_spec unit "s") as [->|?]; [intros [= <-]; naive_solver|].
    destruct (String.eqb_spec unit "m") as [->|?]; [intros [= <-]; naive_solver|].
    destruct (String.eqb_spec unit "h") as [->|?]; [intros [= <-]; naive_solver|].
    discriminate.
  - intros [[-> ->]|[[-> ->]|[[-> ->]|[-> ->]]]]; reflexivity.
Qed.

(** A match with no match starting before it is the leftmost one. *)
Lemma leftmost_match_intro (message pre ds unit post : string) :
  match_at message pre ds unit post ->
  no_match_before (String.length pre) message = true ->
  leftmost_match message pre ds unit post.
Proof.
  intros H Hno. split; [done|]. clear H.
  revert message Hno. induction pre as [|c pre IH]; intros message Hno; [cbn; lia|].
  intros pre2 ds2 unit2 post2 H2. cbn in Hno.
  destruct (match_here message) eqn:Hm; [discriminate|].
  destruct (match_at_tail _ _ _ _ _ Hm H2) as (c' & s' & pre' & -> & -> & H').
  cbn. specialize (IH _ Hno _ _ _ _ H'). lia.
Qed.

(** C3 (amended). For every message whose leftmost match of
    "Please try again in <N><unit>." has a unit among ms, s, m, h, when the
    delay in milliseconds (N, N*1000, N*60000, N*3600000 respectively) fits
    in an [int], [extractRetryTime] returns that delay and no error. *)
Theorem extractRetryTime_units (message pre ds unit post : string) (k : Z) :
  leftmost_match message pre ds unit post ->
  unit_factor unit = Some k ->
  decimal ds * k <= MaxInt ->
  extractRetryTime message = (decimal ds * k, None).
Proof.
  intros H Hk Hfit. pose proof H as [(_ & _ & Hd & _) _].
  pose proof (decimal_nonneg ds Hd). pose proof (unit_factor_pos _ _ Hk).
  rewrite (extractRetryTime_leftmost _ _ _ _ _ H), Hk.
  destruct (Z.leb_spec (decimal ds) MaxInt); [|nia].
  rewrite wrap_int_small; [reflexivity|].
  unfold in_int_range, MinInt. nia.
Qed.

Lemma extractRetryTime_units_witness :
  extractRetryTime "Rate limit reached. Please try again in 7m. Thanks"
  = (420000, None).
Proof.
  apply (extractRetryTime_units _ "Rate limit reached. " "7" "m" " Thanks" 60000).
  - apply leftmost_match_intro; [|by vm_compute].
    by repeat split.
  - reflexivity.
  - by vm_compute.
Defined.

(** The number of the match does not fit in an [int]: [Atoi] fails, and so
    does the parser, although the unit is a known one. *)
Lemma extractRetryTime_units_counterexample :
  leftmost_match "Please try again in 99999999999999999999s." ""
    "99999999999999999999" "s" "" /\
  unit_factor "s" = Some 1000 /\
  extractRetryTime "Please try again in 99999999999999999999s."
  = (0, Some (NumError "99999999999999999999" ErrRange)) /\
  extractRetryTime "Please try again in 99999999999999999999s."
  <> (99999999999999999999 * 1000, None).
Proof.
  split; [|by vm_compute].
  apply leftmost_match_intro; [|by vm_compute]. by repeat split.
Qed.

(** The product of the largest [int] and 1000 wraps around. *)
Lemma extractRetryTime_product_wraps :
  extractRetryTime "Please try again in 9223372036854775807s." = (-1000, None).
Proof. by vm_compute. Qed.

(** Only the leftmost match is looked at: a later well-formed delay does
    not help when an earlier match has an unknown unit. *)
Lemma extractRetryTime_first_match_only :
  match_at "Please try again in 5x. Please try again in 3s."
    "Please try again in 5x. " "3" "s" "" /\
  extractRetryTime "Please try again in 5x. Please try again in 3s."
  = (0, Some (ErrUnknownUnit "x")).
Proof. split; [by repeat split | by vm_compute]. Qed.

(** C4 (amended). [extractRetryTime] returns an error in exactly three
    cases: the message has no match of the pattern (retry time not found);
    the number of the leftmost match is above the largest [int] (the range
    error of [Atoi]); the number fits and the unit of the leftmost match is
    not one of ms, s, m, h (unknown unit). *)
Theorem extractRetryTime_errors (message : string) :
  (~ contains_match message /\
   extractRetryTime message = (0, Some ErrRetryTimeNotFound)) \/
  (exists pre ds unit post,
     leftmost_match message pre ds unit post /\
     ((MaxInt < decimal ds /\
       extractRetryTime message = (0, Some (NumError ds ErrRange))) \/
      (decimal ds <= MaxInt /\ unit_factor unit = None /\
       extractRetryTime message = (0, Some (ErrUnknownUnit unit))) \/
      (decimal ds <= MaxInt /\
       exists k, unit_factor unit = Some k /\
         extractRetryTime message = (wrap_int (decimal ds * k), None)))).
Proof.
  destruct (FindStringSubmatch_spec message)
    as [[Hnil Hno]|(pre & ds & unit & post & H & _)].
  - left. split; [done|]. unfold extractRetryTime. by rewrite Hnil.
  - right. exists pre, ds, unit, post. split; [done|].
    rewrite (extractRetryTime_leftmost _ _ _ _ _ H).
    destruct (Z.leb_spec (decimal ds) MaxInt); [|left; split; [lia|done]].
    right. destruct (unit_factor unit) as [k|]; [right|left]; eauto.
Qed.

(** A message with a match and a known unit for which the parser fails. *)
Lemma extractRetryTime_errors_counterexample :
  contains_match "Please try again in 99999999999999999999h." /\
  FindStringSubmatch "Please try again in 99999999999999999999h."
  = ["Please try again in 99999999999999999999h."; "99999999999999999999"; "h"] /\
  unit_factor "h" = Some 3600000 /\
  snd (extractRetryTime "Please try again in 99999999999999999999h.")
  = Some (NumError "99999999999999999999" ErrRange).
Proof.
  split; [|by vm_compute].
  exists "", "99999999999999999999", "h", "". by repeat split.
Qed.

Lemma upper_unit_unknown (unit : string) :
  string_exists isUpper unit = true -> unit_factor unit = None.
Proof.
  intros H. destruct (unit_factor unit) as [k|] eqn:Hk; [|reflexivity].
  apply unit_factor_table in Hk as [[-> _]|[[-> _]|[[-> _]|[-> _]]]];
    discriminate H.
Qed.

(** C10 (amended). Units are recognised case-sensitively: when the unit of
    the leftmost match contains an upper-case letter, and the number fits
    in an [int], [extractRetryTime] fails with the unknown-unit error. *)
Theorem extractRetryTime_case_sensitive (message pre ds unit post : string) :
  leftmost_match message pre ds unit post ->
  string_exists isUpper unit = true ->
  decimal ds <= MaxInt ->
  extractRetryTime message = (0, Some (ErrUnknownUnit unit)).
Proof.
  intros H Hup Hfit.
  rewrite (extractRetryTime_leftmost _ _ _ _ _ H), (upper_unit_unknown _ Hup).
  by destruct (Z.leb_spec (decimal ds) MaxInt); [|lia].
Qed.

Lemma extractRetryTime_case_sensitive_witness :
  extractRetryTime "Limit hit. Please try again in 12Ms." 
  = (0, Some (ErrUnknownUnit "Ms")).
Proof.
  apply (extractRetryTime_case_sensitive _ "Limit hit. " "12" "Ms" "").
  - apply leftmost_match_intro; [|by vm_compute]. by repeat split.
  - reflexivity.
  - by vm_compute.
Defined.

(** With an upper-case unit and a number that does not fit in an [int] the
    error is the range error of [Atoi], not the unknown-unit one. *)
Lemma extractRetryTime_case_sensitive_counterexample :
  leftmost_match "Please try again in 99999999999999999999S." ""
    "99999999999999999999" "S" "" /\
  string_exists isUpper "S" = true /\
  extractRetryTime "Please try again in 99999999999999999999S."
  = (0, Some (NumError "99999999999999999999" ErrRange)) /\
  extractRetryTime "Please try again in 99999999999999999999S."
  <> (0, Some (ErrUnknownUnit "S")).
Proof.
  split; [|by vm_compute].
  apply leftmost_match_intro; [|by vm_compute]. by repeat split.
Qed.

(** ** The request encoder and the transport *)

Section ClientProperties.
Context {GT : GoTypes} {CD : Codec}.
Implicit Types (c : client) (req : ChatCompletionRequest) (hr : Request).
Implicit Types (w : World) (r : Response) (body : string).

Lemma makeReq_stream c req w :
  Stream req = true -> makeReq c req w = ((None, "", Some ErrUseStream), w).
Proof. intros H. unfold makeReq. by rewrite H. Qed.

(** [makeReq] returns a response and no error, or no response and an
    error. *)
Lemma makeReq_cases c req w :
  (exists e w', makeReq c req w = ((None, "", Some e), w')) \/
  (exists r body w', makeReq c req w = ((Some r, body, None), w')).
Proof.
  unfold makeReq, http_NewRequest, Do.
  destruct (Stream req); [by eauto|].
  destruct (json_Marshal req); [|by eauto].
  destruct (url_Parse _); [|by eauto].
  destruct (httpClient c _ _) as [r|]; [|by eauto].
  destruct (Body r); by eauto.
Qed.

Lemma makeReq_encoded c req hr w :
  encoded c req hr ->
  makeReq c req w =
    (match httpClient c (length (sent w)) hr with
     | inr e => (None, "", Some (ErrSendRequest e))
     | inl r =>
         match Body r with
         | inr e => (None, "", Some (ErrReadBody e))
         | inl body => (Some r, body, None)
         end
     end, w ++ [EvSend hr]).
Proof.
  intros (Hs & jsonData & u & Hm & Hu & ->).
  unfold makeReq, http_NewRequest, Do. rewrite Hs, Hm, Hu.
  unfold Request_Header_Set, Header_Set; cbn [Method URL ReqHeader ReqBody].
  change (CanonicalMIMEHeaderKey "Content-Type") with "Content-Type".
  change (CanonicalMIMEHeaderKey "Authorization") with "Authorization".
  rewrite (insert_insert_ne (M:=gmap string)) by done.
  rewrite insert_empty.
  destruct (httpClient c _ _) as [r|]; [|done]. by destruct (Body r).
Qed.

Lemma makeReq_answer c req hr w r body :
  encoded c req hr -> answers c hr (length (sent w)) r body ->
  makeReq c req w = ((Some r, body, None), w ++ [EvSend hr]).
Proof.
  intros He [Hr Hb]. by rewrite (makeReq_encoded _ _ _ _ He), Hr, Hb.
Qed.

(** C1. With the [Stream] flag set, [makeReq] reports the error and sends
    nothing, and [CreateChatCompletion], which reads the status code of the
    nil response without looking at the error, panics: the caller gets no
    error value. *)
Theorem CreateChatCompletion_stream_panics c req w :
  Stream req = true ->
  makeReq c req w = ((None, "", Some ErrUseStream), w) /\
  CreateChatCompletion c req w = Some (Panic, w).
Proof.
  intros H. split; [by apply makeReq_stream|].
  unfold CreateChatCompletion. by rewrite makeReq_stream.
Qed.

(** C2. When the request cannot be serialized, or the transport fails,
    [makeReq] reports the error and [CreateChatCompletion] panics on the nil
    response instead of returning it. *)
Theorem CreateChatCompletion_failure_panics c req w :
  Stream req = false ->
  (exists e, json_Marshal req = inr e) \/
  (exists hr e, encoded c req hr /\ httpClient c (length (sent w)) hr = inr e) ->
  exists e w',
    makeReq c req w = ((None, "", Some e), w') /\
    CreateChatCompletion c req w = Some (Panic, w').
Proof.
  intros Hs [[e He]|(hr & e & Henc & Hdo)].
  - exists (ErrMarshal e), w.
    assert (makeReq c req w = ((None, "", Some (ErrMarshal e)), w)) as Hm
      by (unfold makeReq; by rewrite Hs, He).
    split; [done|]. unfold CreateChatCompletion. by rewrite Hm.
  - exists (ErrSendRequest e), (w ++ [EvSend hr]).
    assert (makeReq c req w = ((None, "", Some (ErrSendRequest e)), w ++ [EvSend hr]))
      as Hm by (by rewrite (makeReq_encoded _ _ _ _ Henc), Hdo).
    split; [done|]. unfold CreateChatCompletion. by rewrite Hm.
Qed.

(** ** The retry loop *)

Lemma sent_app w1 w2 : sent (w1 ++ w2) = sent w1 ++ sent w2.
Proof. apply omap_app. Qed.

Lemma slept_app w1 w2 : slept (w1 ++ w2) = slept w1 ++ slept w2.
Proof. apply omap_app. Qed.

Lemma clamp_min (maxMs retryMs : Z) :
  (if maxMs <? retryMs then maxMs else retryMs) = Z.min retryMs maxMs.
Proof. destruct (Z.ltb_spec maxMs retryMs); lia. Qed.

(** One round of waiting: the events are those of [waiting_round], and the
    loop goes on with the answer to the new request. *)
Lemma retry_body_wait c req hr retry r body w :
  encoded c req hr -> wait_on_ratelimit c = true ->
  retry + 1 <= maxRetry ->
  (exists e, json_Unmarshal_ErrorResponse body = inl e) ->
  retry_body c req retry r body w =
    (match httpClient c (length (sent w)) hr with
     | inl r' =>
         match Body r' with
         | inl body' => Next (retry + 1) (Some r') body'
         | inr _ => Done Panic
         end
     | inr _ => Done Panic
     end, w ++ waiting_round c hr r).
Proof.
  intros Henc Hwait Hretry [e He]. unfold retry_body.
  destruct (Z.ltb_spec maxRetry (retry + 1)); [lia|].
  rewrite He, Hwait.
  destruct (Atoi (Header_Get (RespHeader r) "retry-after")) as [retrys err] eqn:Ha.
  rewrite (makeReq_encoded _ _ _ _ Henc).
  unfold fmt_Println, time_Sleep, waiting_round. rewrite Ha. cbn [fst].
  rewrite !sent_app. cbn [sent omap list_omap]. rewrite !app_nil_r.
  rewrite clamp_min, <- !app_assoc. cbn [app].
  destruct (httpClient c _ _) as [r'|]; [|done]. by destruct (Body r').
Qed.

(** The budget is spent: the body returns before it decodes anything. *)
Lemma retry_body_exhausted c req retry r body w :
  maxRetry < retry + 1 ->
  retry_body c req retry r body w =
    (Done (Return (None, Some (ErrRetryExhausted (retry + 1) maxRetry
                                 (StatusCode r) body r))), w).
Proof.
  intros H. unfold retry_body.
  by destruct (Z.ltb_spec maxRetry (retry + 1)); [|lia].
Qed.

(** The body of a rate-limit answer does not decode: the body of the loop
    returns without an event. *)
Lemma retry_body_undecodable c req retry r body w msg :
  retry + 1 <= maxRetry ->
  json_Unmarshal_ErrorResponse body = inr msg ->
  retry_body c req retry r body w =
    (Done (Return (None, Some (ErrUnmarshalErrorBody (StatusCode r) body r))), w).
Proof.
  intros H Hd. unfold retry_body.
  destruct (Z.ltb_spec maxRetry (retry + 1)); [lia|]. by rewrite Hd.
Qed.

Lemma retry_body_next c req retry r body w retry' resp' body' w' :
  retry_body c req retry r body w = (Next retry' resp' body', w') ->
  retry' = retry + 1 /\ retry + 1 <= maxRetry.
Proof.
  unfold retry_body. destruct (Z.ltb_spec maxRetry (retry + 1)); [done|].
  destruct (json_Unmarshal_ErrorResponse body); [|done].
  destruct (Atoi _) as [retrys err]. destruct (wait_on_ratelimit c).
  - destruct (makeReq _ _ _) as [[[resp2 body2] [err2|]] w2].
    + by destruct resp2.
    + intros [= <- _ _ _]. done.
  - destruct err; [done|]. intros [= <- _ _ _]. done.
Qed.

(** The loop is left after at most [maxRetry + 1 - retry] rounds. *)
Lemma retry_loop_total (fuel : nat) c req retry resp body w :
  (Z.to_nat (maxRetry + 1 - retry) <= fuel)%nat ->
  exists out, retry_loop fuel c req retry resp body w = Some out.
Proof.
  revert retry resp body w.
  induction fuel as [|fuel IH]; intros retry resp body w Hfuel;
    (destruct resp as [r|]; cbn [retry_loop]; [|by eauto]);
    destruct (StatusCode r =? StatusTooManyRequests); cbn [andb]; try by eauto.
  - destruct (Z.leb_spec retry maxRetry); [lia | by eauto].
  - destruct (Z.leb_spec retry maxRetry); [|by eauto].
    destruct (retry_body c req retry r body w) as [[retry' resp' body'|o] w'] eqn:Hb;
      [|by eauto].
    apply retry_body_next in Hb as [-> _]. apply IH. lia.
Qed.

(** More fuel does not change what the loop returns. *)
Lemma retry_loop_fuel_mono (fuel : nat) c req retry resp body w out :
  retry_loop fuel c req retry resp body w = Some out ->
  retry_loop (S fuel) c req retry resp body w = Some out.
Proof.
  revert retry resp body w.
  induction fuel as [|fuel IH]; intros retry resp body w;
    (destruct resp as [r|]; [|done]); cbn [retry_loop];
    (destruct (_ && _); [|done]); [done|].
  destruct (retry_body c req retry r body w) as [[retry' resp' body'|o] w']; [|done].
  apply IH.
Qed.

(** [CreateChatCompletion] always comes to an end: with a result or with a
    panic. *)
Theorem CreateChatCompletion_total c req w :
  exists o w', CreateChatCompletion c req w = Some (o, w').
Proof.
  unfold CreateChatCompletion.
  destruct (makeReq c req w) as [[[resp body] err] w1].
  destruct resp as [r|]; [|by eauto].
  destruct (negb (StatusCode r =? StatusOK)).
  - destruct (retry_loop_total (Z.to_nat (maxRetry + 1)) c req 0 (Some r) body w1)
      as [[[retry' resp' body'|o] w2] ->]; [done| |by eauto].
    destruct (json_Unmarshal_ChatCompletionResponse body'); by eauto.
  - destruct (json_Unmarshal_ChatCompletionResponse body); by eauto.
Qed.

Lemma run_trace_snoc c hr (rs : list Response) r :
  run_trace c hr (rs ++ [r]) = run_trace c hr rs ++ waiting_round c hr r.
Proof.
  unfold run_trace. rewrite fmap_app, concat_app. cbn [fmap list_fmap concat].
  by rewrite app_nil_r.
Qed.

Lemma sent_run_trace c hr (rs : list Response) :
  sent (run_trace c hr rs) = replicate (S (length rs)) hr.
Proof.
  induction rs as [|r rs IH] using rev_ind; [reflexivity|].
  rewrite run_trace_snoc, sent_app, IH, length_app. cbn.
  rewrite Nat.add_1_r. f_equal.
  change [hr] with (replicate 1 hr). rewrite <- replicate_add.
  by rewrite Nat.add_1_r.
Qed.

Lemma slept_run_trace_length c hr (rs : list Response) :
  length (slept (run_trace c hr rs)) = length rs.
Proof.
  induction rs as [|r rs IH] using rev_ind; [reflexivity|].
  rewrite run_trace_snoc, slept_app, !length_app, IH. reflexivity.
Qed.

Lemma answered_S (a : nat -> Response * string) (k : nat) :
  answered a (S k) = answered a k ++ [(a k).1].
Proof. unfold answered. by rewrite seq_S, fmap_app. Qed.

Lemma answered_length (a : nat -> Response * string) (k : nat) :
  length (answered a k) = k.
Proof. unfold answered. by rewrite length_fmap, length_seq. Qed.

(** [d] rounds of waiting against a script of rate-limit answers. *)
Lemma retry_loop_rounds c req hr (a : nat -> Response * string) (d : nat) :
  forall (fuel j : nat),
    encoded c req hr -> d = 0%nat \/ wait_on_ratelimit c = true ->
    script_answers c hr a (j + d) -> script_limited a (j + d) ->
    (j + d <= 5)%nat ->
    retry_loop (d + fuel) c req (Z.of_nat j) (Some (a j).1) (a j).2
      (run_trace c hr (answered a j))
    = retry_loop fuel c req (Z.of_nat (j + d)) (Some (a (j + d)%nat).1)
        (a (j + d)%nat).2 (run_trace c hr (answered a (j + d))).
Proof.
  induction d as [|d IH]; intros fuel j Henc Hwait Hans Hlim Hle.
  - by rewrite Nat.add_0_r.
  - destruct Hwait as [|Hwait]; [done|]. cbn [Nat.add retry_loop].
    destruct (Hlim j ltac:(lia)) as [Hcode Hdec]. rewrite Hcode, Z.eqb_refl.
    destruct (Z.leb_spec (Z.of_nat j) maxRetry) as [_|Hj];
      [|unfold maxRetry in Hj; lia].
    cbn [andb].
    rewrite (retry_body_wait _ _ _ _ _ _ _ Henc Hwait); [|unfold maxRetry; lia|done].
    rewrite sent_run_trace, length_replicate, answered_length.
    destruct (Hans (S j) ltac:(lia)) as [-> ->].
    rewrite <- run_trace_snoc, <- answered_S.
    replace (Z.of_nat j + 1) with (Z.of_nat (S j)) by lia.
    replace (j + S d)%nat with (S j + d)%nat in * by lia.
    apply IH; auto.
Qed.

(** The call up to the first answer. *)
Lemma CreateChatCompletion_first c req hr r body :
  encoded c req hr -> answers c hr 0 r body ->
  makeReq c req empty_world = ((Some r, body, None), run_trace c hr []).
Proof. intros Henc Hans. by rewrite (makeReq_answer _ _ hr _ r body). Qed.

(** C5. When the server answers 429 to each of the first six requests, with
    bodies that decode as the error envelope, and waiting is enabled, the
    call sends exactly six requests, sleeps five times, and returns the
    error that reports the status code and body of the sixth answer. *)
Theorem CreateChatCompletion_retry_budget c req hr (a : nat -> Response * string) :
  encoded c req hr -> wait_on_ratelimit c = true ->
  script_answers c hr a 5 -> script_limited a 6 ->
  exists w,
    CreateChatCompletion c req empty_world
    = Some (Return (None, Some (ErrRetryExhausted 6 5 429 (a 5%nat).2 (a 5%nat).1)), w) /\
    sent w = replicate 6 hr /\ length (slept w) = 5%nat.
Proof.
  intros Henc Hwait Hans Hlim. exists (run_trace c hr (answered a 5)).
  split; [|by rewrite sent_run_trace, slept_run_trace_length, answered_length].
  unfold CreateChatCompletion.
  rewrite (CreateChatCompletion_first _ _ hr (a 0%nat).1 (a 0%nat).2 Henc (Hans 0%nat ltac:(lia))).
  destruct (Hlim 0%nat ltac:(lia)) as [-> _]. cbn [negb Z.eqb StatusTooManyRequests StatusOK Pos.eqb].
  change (Z.to_nat (maxRetry + 1)) with (5 + 1)%nat.
  change (run_trace c hr []) with (run_trace c hr (answered a 0)).
  change (retry_loop (5 + 1) c req 0) with (retry_loop (5 + 1) c req (Z.of_nat 0)).
  rewrite (retry_loop_rounds c req hr a 5 1 0 Henc (or_intror Hwait));
    [|done|intros i Hi; apply Hlim; lia|lia].
  cbn [Nat.add retry_loop]. destruct (Hlim 5%nat ltac:(lia)) as [Hcode _].
  rewrite retry_body_exhausted, Hcode by done. reflexivity.
Qed.

(** C6. Three 429 answers with [retry-after: 1] and decodable error bodies,
    then a 200 answer with a decodable body, waiting enabled and a ceiling
    of 5000 ms: the call sleeps exactly three times, 1000 ms each, sends
    four requests and returns the decoded payload of the fourth answer. *)
Theorem CreateChatCompletion_three_waits c req hr (a : nat -> Response * string)
    (payload : ChatCompletionResponse) :
  encoded c req hr -> wait_on_ratelimit c = true ->
  max_wait_on_ratelimit_in_ms c = 5000 ->
  script_answers c hr a 3 -> script_limited a 3 ->
  (forall i, (i < 3)%nat -> Header_Get (RespHeader (a i).1) "retry-after" = "1") ->
  StatusCode (a 3%nat).1 = StatusOK ->
  json_Unmarshal_ChatCompletionResponse (a 3%nat).2 = inl payload ->
  exists w,
    CreateChatCompletion c req empty_world = Some (Return (Some payload, None), w) /\
    slept w = [1000 * Millisecond; 1000 * Millisecond; 1000 * Millisecond] /\
    sent w = [hr; hr; hr; hr].
Proof.
  intros Henc Hwait Hmax Hans Hlim Hhdr Hok Hpay.
  exists (run_trace c hr (answered a 3)). split; [|split].
  - unfold CreateChatCompletion.
    rewrite (CreateChatCompletion_first _ _ hr (a 0%nat).1 (a 0%nat).2 Henc
               (Hans 0%nat ltac:(lia))).
    destruct (Hlim 0%nat ltac:(lia)) as [-> _].
    cbn [negb Z.eqb StatusTooManyRequests StatusOK Pos.eqb].
    change (Z.to_nat (maxRetry + 1)) with (3 + 3)%nat.
    change (run_trace c hr []) with (run_trace c hr (answered a 0)).
    change (retry_loop (3 + 3) c req 0) with (retry_loop (3 + 3) c req (Z.of_nat 0)).
    rewrite (retry_loop_rounds c req hr a 3 3 0 Henc (or_intror Hwait));
      [|done|done|lia].
    cbn [Nat.add retry_loop]. rewrite Hok. cbn [Z.eqb StatusOK StatusTooManyRequests Pos.eqb andb].
    by rewrite Hpay.
  - unfold answered, run_trace, waiting_round, slept.
    cbn [seq fmap list_fmap concat app omap list_omap].
    rewrite !Hhdr, Hmax by lia. reflexivity.
  - by rewrite sent_run_trace, answered_length.
Qed.

Lemma events_no_send_sleep w (k : nat) (l : LogLine) :
  sent (w ++ replicate k (EvPrint l)) = sent w /\
  slept (w ++ replicate k (EvPrint l)) = slept w.
Proof.
  rewrite sent_app, slept_app.
  assert (sent (replicate k (EvPrint l)) = [] /\ slept (replicate k (EvPrint l)) = [])
    as [-> ->] by (induction k; [done | by cbn]).
  by rewrite !app_nil_r.
Qed.

(** Waiting disabled, a decodable error body and an integer header: every
    round only prints, and the loop ends when the budget is spent. *)
Lemma retry_loop_no_wait (fuel : nat) c req retry r body w er (secs : Z) :
  wait_on_ratelimit c = false ->
  StatusCode r = StatusTooManyRequests ->
  json_Unmarshal_ErrorResponse body = inl er ->
  Atoi (Header_Get (RespHeader r) "retry-after") = (secs, None) ->
  0 <= retry <= maxRetry ->
  (Z.to_nat (maxRetry + 1 - retry) <= fuel)%nat ->
  retry_loop fuel c req retry (Some r) body w =
    Some (Done (Return (None, Some (ErrRetryExhausted 6 maxRetry 429 body r))),
          w ++ replicate (Z.to_nat (maxRetry - retry)) (EvPrint LogSkipWaiting)).
Proof.
  intros Hwait Hcode Hdec Hatoi. revert retry w.
  induction fuel as [|fuel IH]; intros retry w Hretry Hfuel;
    [unfold maxRetry in *; lia|].
  cbn [retry_loop]. rewrite Hcode, Z.eqb_refl.
  destruct (Z.leb_spec retry maxRetry); [|lia]. cbn [andb].
  destruct (Z.eq_dec retry maxRetry) as [->|Hne].
  - rewrite retry_body_exhausted, Hcode by (unfold maxRetry; lia).
    rewrite Z.sub_diag. cbn [Z.to_nat replicate]. by rewrite app_nil_r.
  - assert (retry_body c req retry r body w
            = (Next (retry + 1) (Some r) body, w ++ [EvPrint LogSkipWaiting])) as ->.
    { unfold retry_body. destruct (Z.ltb_spec maxRetry (retry + 1)); [lia|].
      by rewrite Hdec, Hatoi, Hwait. }
    rewrite IH by (unfold maxRetry in *; lia).
    rewrite <- app_assoc. do 3 f_equal.
    replace (Z.to_nat (maxRetry - retry)) with (S (Z.to_nat (maxRetry - (retry + 1))))
      by (unfold maxRetry in *; lia).
    reflexivity.
Qed.

(** C7 (amended). When the request is sent, its first answer is a 429
    whose body can be read, and waiting is disabled, the call sleeps zero
    times, sends no further request, and returns an error (never a decoded
    response) that reports status 429 and the body of the answer: the
    unmarshal error when the body does not decode as the error envelope;
    otherwise the parse-retry-time error when [Atoi] fails on the
    [retry-after] header (missing, not a number, or out of the range of
    [int]); otherwise the retry-budget error (retry 6, max retry 5). *)
Theorem CreateChatCompletion_no_wait c req hr r body :
  encoded c req hr -> wait_on_ratelimit c = false ->
  answers c hr 0 r body -> StatusCode r = StatusTooManyRequests ->
  exists e w,
    CreateChatCompletion c req empty_world = Some (Return (None, Some e), w) /\
    error_reports e 429 body /\ sent w = [hr] /\ slept w = [] /\
    e = match json_Unmarshal_ErrorResponse body,
              (Atoi (Header_Get (RespHeader r) "retry-after")).2 with
        | inr _, _ => ErrUnmarshalErrorBody 429 body r
        | inl _, Some _ => ErrParseRetryTime 429 body
        | inl _, None => ErrRetryExhausted 6 5 429 body r
        end.
Proof.
  intros Henc Hwait Hans Hcode. unfold CreateChatCompletion.
  rewrite (CreateChatCompletion_first _ _ hr r body Henc Hans), Hcode.
  cbn [negb Z.eqb StatusTooManyRequests StatusOK Pos.eqb].
  destruct (json_Unmarshal_ErrorResponse body) as [er|msg] eqn:Hdec.
  - destruct (Atoi (Header_Get (RespHeader r) "retry-after")) as [secs [err|]] eqn:Ha.
    + exists (ErrParseRetryTime 429 body), (run_trace c hr [] ++ [EvPrint LogSkipWaiting]).
      split; [|by repeat split].
      change (Z.to_nat (maxRetry + 1)) with 6%nat. cbn [retry_loop].
      rewrite Hcode. cbn [Z.eqb StatusTooManyRequests Pos.eqb Z.leb Z.compare andb].
      unfold retry_body. cbn [Z.add Z.ltb Z.compare maxRetry Pos.compare Pos.compare_cont].
      by rewrite Hdec, Ha, Hwait, Hcode.
    + exists (ErrRetryExhausted 6 5 429 body r),
        (run_trace c hr [] ++
         replicate (Z.to_nat (maxRetry - 0)) (EvPrint LogSkipWaiting)).
      split; [|split; [|split; [|split]]].
      * by rewrite (retry_loop_no_wait _ c req 0 r body _ er secs).
      * done.
      * by apply events_no_send_sleep.
      * by apply events_no_send_sleep.
      * done.
  - exists (ErrUnmarshalErrorBody 429 body r), (run_trace c hr []).
    split; [|by repeat split].
    change (Z.to_nat (maxRetry + 1)) with 6%nat. cbn [retry_loop].
    rewrite Hcode. cbn [Z.eqb StatusTooManyRequests Pos.eqb Z.leb Z.compare andb].
    rewrite (retry_body_undecodable _ _ _ _ _ _ msg), Hcode; [done| |done].
    unfold maxRetry. lia.
Qed.

(** C9. In every run, when the answer to a request is a 429 whose body does
    not decode as the error envelope, the call returns an error that
    reports that answer, and the request it answers is the last event of
    the run: no sleep and no request follow. *)
Theorem CreateChatCompletion_undecodable c req hr (a : nat -> Response * string)
    (k : nat) (msg : string) :
  encoded c req hr -> (k <= 5)%nat ->
  k = 0%nat \/ wait_on_ratelimit c = true ->
  script_answers c hr a k -> script_limited a k ->
  StatusCode (a k).1 = StatusTooManyRequests ->
  json_Unmarshal_ErrorResponse (a k).2 = inr msg ->
  exists e w,
    CreateChatCompletion c req empty_world = Some (Return (None, Some e), w) /\
    error_reports e 429 (a k).2 /\
    w = run_trace c hr (answered a k) /\
    sent w = replicate (S k) hr /\ length (slept w) = k.
Proof.
  intros Henc Hk Hwait Hans Hlim Hcode Hdec.
  assert (StatusCode (a 0%nat).1 = StatusTooManyRequests) as Hcode0.
  { destruct k; [done|]. by destruct (Hlim 0%nat ltac:(lia)). }
  assert (exists e,
    retry_loop (S (5 - k)) c req (Z.of_nat k) (Some (a k).1) (a k).2
      (run_trace c hr (answered a k))
    = Some (Done (Return (None, Some e)), run_trace c hr (answered a k)) /\
    error_reports e 429 (a k).2) as (e & Hloop & Hrep).
  { cbn [retry_loop]. rewrite Hcode, Z.eqb_refl.
    destruct (Z.leb_spec (Z.of_nat k) maxRetry); [|unfold maxRetry in *; lia].
    cbn [andb]. destruct (decide (k = 5%nat)) as [->|Hne].
    - rewrite retry_body_exhausted, Hcode by done. by eexists.
    - rewrite (retry_body_undecodable _ _ _ _ _ _ msg), Hcode;
        [by eexists|unfold maxRetry; lia|done]. }
  exists e, (run_trace c hr (answered a k)).
  split; [|by rewrite sent_run_trace, slept_run_trace_length, answered_length].
  unfold CreateChatCompletion.
  rewrite (CreateChatCompletion_first _ _ hr (a 0%nat).1 (a 0%nat).2 Henc
             (Hans 0%nat ltac:(lia))), Hcode0.
  cbn [negb Z.eqb StatusTooManyRequests StatusOK Pos.eqb].
  replace (Z.to_nat (maxRetry + 1)) with (k + S (5 - k))%nat
    by (unfold maxRetry; lia).
  change (run_trace c hr []) with (run_trace c hr (answered a 0)).
  change (retry_loop (k + S (5 - k)) c req 0)
    with (retry_loop (k + S (5 - k)) c req (Z.of_nat 0)).
  rewrite (retry_loop_rounds c req hr a k (S (5 - k)) 0 Henc Hwait); [|done|done|lia].
  cbn [Nat.add]. by rewrite Hloop.
Qed.

(** X18. The transport fails on a retry: [resp] is nil when the error
    message of line 178 reads its status code, and the call panics. *)
Lemma CreateChatCompletion_retry_failure_panics c req hr
    (a : nat -> Response * string) (k : nat) (msg : string) :
  encoded c req hr -> wait_on_ratelimit c = true -> (k < 5)%nat ->
  script_answers c hr a k -> script_limited a (S k) ->
  httpClient c (S k) hr = inr msg ->
  CreateChatCompletion c req empty_world
  = Some (Panic, run_trace c hr (answered a (S k))).
Proof.
  intros Henc Hwait Hk Hans Hlim Hfail. unfold CreateChatCompletion.
  rewrite (CreateChatCompletion_first _ _ hr (a 0%nat).1 (a 0%nat).2 Henc
             (Hans 0%nat ltac:(lia))).
  destruct (Hlim 0%nat ltac:(lia)) as [-> _].
  cbn [negb Z.eqb StatusTooManyRequests StatusOK Pos.eqb].
  replace (Z.to_nat (maxRetry + 1)) with (k + S (5 - k))%nat
    by (unfold maxRetry; lia).
  change (run_trace c hr []) with (run_trace c hr (answered a 0)).
  change (retry_loop (k + S (5 - k)) c req 0)
    with (retry_loop (k + S (5 - k)) c req (Z.of_nat 0)).
  rewrite (retry_loop_rounds c req hr a k (S (5 - k)) 0 Henc (or_intror Hwait));
    [|done|intros i Hi; apply Hlim; lia|lia].
  cbn [Nat.add retry_loop].
  destruct (Hlim k ltac:(lia)) as [Hcode Hdec]. rewrite Hcode, Z.eqb_refl.
  destruct (Z.leb_spec (Z.of_nat k) maxRetry); [|unfold maxRetry in *; lia].
  cbn [andb].
  rewrite (retry_body_wait _ _ hr _ _ _ _ Henc Hwait); [|unfold maxRetry; lia|done].
  rewrite sent_run_trace, length_replicate, answered_length, Hfail.
  by rewrite <- run_trace_snoc, <- answered_S.
Qed.

(** ** Events are only added *)

Lemma makeReq_extends c req w :
  exists rest, (makeReq c req w).2 = w ++ rest.
Proof.
  unfold makeReq, http_NewRequest, Do.
  destruct (Stream req); [by exists []; rewrite app_nil_r|].
  destruct (json_Marshal req); [|by exists []; rewrite app_nil_r].
  destruct (url_Parse _); [|by exists []; rewrite app_nil_r].
  destruct (httpClient c _ _) as [r|]; [|by eexists].
  destruct (Body r); by eexists.
Qed.

Lemma retry_body_extends c req retry r body w :
  exists rest, (retry_body c req retry r body w).2 = w ++ rest.
Proof.
  unfold retry_body.
  destruct (maxRetry <? retry + 1); [by exists []; rewrite app_nil_r|].
  destruct (json_Unmarshal_ErrorResponse body); [|by exists []; rewrite app_nil_r].
  destruct (Atoi _) as [retrys err]. destruct (wait_on_ratelimit c).
  - unfold fmt_Println, time_Sleep.
    match goal with |- context [makeReq c req ?w0] =>
      destruct (makeReq_extends c req w0) as [rest Hrest];
      destruct (makeReq c req w0) as [[[resp2 body2] err2] w2] end.
    cbn [snd] in Hrest. subst w2. rewrite <- !app_assoc.
    destruct err2; [destruct resp2|]; by eexists.
  - unfold fmt_Println. destruct err; by eexists.
Qed.

Lemma retry_loop_extends (fuel : nat) c req retry resp body w flow w' :
  retry_loop fuel c req retry resp body w = Some (flow, w') ->
  exists rest, w' = w ++ rest.
Proof.
  revert retry resp body w.
  induction fuel as [|fuel IH]; intros retry resp body w;
    (destruct resp as [r|]; cbn [retry_loop];
     [|by intros [= _ <-]; exists []; rewrite app_nil_r]);
    (destruct (_ && _); [|by intros [= _ <-]; exists []; rewrite app_nil_r]);
    [done|].
  destruct (retry_body_extends c req retry r body w) as [rest1 H1].
  destruct (retry_body c req retry r body w) as [[retry' resp' body'|o] w1].
  - intros H. apply IH in H as [rest2 ->]. cbn [snd] in H1. subst w1.
    rewrite <- app_assoc. by eexists.
  - intros [= _ <-]. cbn [snd] in H1. by eexists.
Qed.

(** The wait of a round, when nothing overflows. *)
Lemma waiting_round_exact c hr r (secs : Z) :
  Atoi (Header_Get (RespHeader r) "retry-after") = (secs, None) ->
  in_int_range (secs * 1000) ->
  in_int_range (Z.min (secs * 1000) (max_wait_on_ratelimit_in_ms c) * Millisecond) ->
  waiting_round c hr r =
    [EvPrint (LogRetryAfter (secs * 1000));
     EvSleep (Z.min (secs * 1000) (max_wait_on_ratelimit_in_ms c) * Millisecond);
     EvPrint LogRetryingNow;
     EvSend hr].
Proof.
  intros Ha H1 H2. unfold waiting_round, Duration_mul, int_mul.
  rewrite Ha. cbn [fst]. by rewrite (wrap_int_small _ H1), (wrap_int_small _ H2).
Qed.

(** C8 (amended). With waiting enabled, when a 429 answer with a decodable
    error body is retried, its [retry-after] header is an integer S that is
    not negative, the ceiling is not negative, and S*1000 and the
    nanoseconds of the clamped wait fit in 64 bits, the duration passed to
    [time.Sleep], and so slept (it is not negative), is
    min(S*1000, max_wait_on_ratelimit_in_ms) milliseconds, and the request
    is sent again after it. *)
Theorem CreateChatCompletion_wait_duration c req hr (a : nat -> Response * string)
    (k : nat) (secs : Z) :
  encoded c req hr -> wait_on_ratelimit c = true -> (k < 5)%nat ->
  script_answers c hr a k -> script_limited a (S k) ->
  Atoi (Header_Get (RespHeader (a k).1) "retry-after") = (secs, None) ->
  0 <= secs -> 0 <= max_wait_on_ratelimit_in_ms c ->
  in_int_range (secs * 1000) ->
  in_int_range (Z.min (secs * 1000) (max_wait_on_ratelimit_in_ms c) * Millisecond) ->
  0 <= Z.min (secs * 1000) (max_wait_on_ratelimit_in_ms c) * Millisecond /\
  exists o rest,
    CreateChatCompletion c req empty_world =
      Some (o, run_trace c hr (answered a k) ++
               [EvPrint (LogRetryAfter (secs * 1000));
                EvSleep (Z.min (secs * 1000) (max_wait_on_ratelimit_in_ms c)
                         * Millisecond);
                EvPrint LogRetryingNow;
                EvSend hr] ++ rest).
Proof.
  intros Henc Hwait Hk Hans Hlim Ha Hsecs Hmax H1 H2.
  split; [unfold Millisecond; lia|].
  unfold CreateChatCompletion.
  rewrite (CreateChatCompletion_first _ _ hr (a 0%nat).1 (a 0%nat).2 Henc
             (Hans 0%nat ltac:(lia))).
  destruct (Hlim 0%nat ltac:(lia)) as [-> _].
  cbn [negb Z.eqb StatusTooManyRequests StatusOK Pos.eqb].
  replace (Z.to_nat (maxRetry + 1)) with (k + S (5 - k))%nat
    by (unfold maxRetry; lia).
  change (run_trace c hr []) with (run_trace c hr (answered a 0)).
  change (retry_loop (k + S (5 - k)) c req 0)
    with (retry_loop (k + S (5 - k)) c req (Z.of_nat 0)).
  rewrite (retry_loop_rounds c req hr a k (S (5 - k)) 0 Henc (or_intror Hwait));
    [|done|intros i Hi; apply Hlim; lia|lia].
  cbn [Nat.add retry_loop].
  destruct (Hlim k ltac:(lia)) as [Hcode Hdec]. rewrite Hcode, Z.eqb_refl.
  destruct (Z.leb_spec (Z.of_nat k) maxRetry); [|unfold maxRetry in *; lia].
  cbn [andb].
  rewrite (retry_body_wait _ _ hr _ _ _ _ Henc Hwait); [|unfold maxRetry; lia|done].
  rewrite (waiting_round_exact _ _ _ secs Ha H1 H2).
  destruct (httpClient c _ hr) as [r'|];
    [destruct (Body r') as [body'|]|];
    try (by eexists _, []; rewrite app_nil_r).
  destruct (retry_loop_total (5 - k) c req (Z.of_nat k + 1) (Some r') body'
              (run_trace c hr (answered a k) ++
               [EvPrint (LogRetryAfter (secs * 1000));
                EvSleep (Z.min (secs * 1000) (max_wait_on_ratelimit_in_ms c)
                         * Millisecond);
                EvPrint LogRetryingNow; EvSend hr]))
    as [[flow w'] Hloop]; [unfold maxRetry; lia|].
  rewrite Hloop. apply retry_loop_extends in Hloop as [rest ->].
  rewrite <- app_assoc.
  destruct flow as [retry2 resp2 body2|o]; [|by eexists _, _].
  destruct (json_Unmarshal_ChatCompletionResponse body2); by eexists _, _.
Qed.

End ClientProperties.

(** ** The theorems on sample runs *)

Lemma sample_encoded (t : HTTPClient) (wait : bool) (maxMs : Z) :
  @encoded Sample.types Sample.codec (Sample.client_with t wait maxMs)
    (Sample.request false false) Sample.wire.
Proof. split; [reflexivity|]. eexists _, _. repeat split. Qed.

Lemma CreateChatCompletion_stream_panics_witness :
  Sample.run (Sample.client_with (Sample.refused_from 0) true 5000)
    (Sample.request true false) = Some (Panic, empty_world).
Proof.
  apply (@CreateChatCompletion_stream_panics Sample.types Sample.codec).
  reflexivity.
Defined.

Lemma CreateChatCompletion_failure_panics_witness :
  exists e w',
    @makeReq Sample.types Sample.codec
      (Sample.client_with (Sample.refused_from 0) true 5000)
      (Sample.request false false) empty_world = ((None, "", Some e), w') /\
    Sample.run (Sample.client_with (Sample.refused_from 0) true 5000)
      (Sample.request false false) = Some (Panic, w').
Proof.
  apply (@CreateChatCompletion_failure_panics Sample.types Sample.codec).
  - reflexivity.
  - right. exists Sample.wire, "dial tcp: connection refused".
    split; [apply sample_encoded | reflexivity].
Defined.

Lemma CreateChatCompletion_retry_budget_witness :
  exists w,
    Sample.run (Sample.client_with (Sample.always_limited "2" "{}") true 5000)
      (Sample.request false false)
    = Some (Return (None, Some (ErrRetryExhausted 6 5 429 "{}"
                                  (Sample.limited_response "2" "{}"))), w) /\
    sent w = replicate 6 Sample.wire /\ length (slept w) = 5%nat.
Proof.
  apply (@CreateChatCompletion_retry_budget Sample.types Sample.codec _ _ Sample.wire
           (fun _ => (Sample.limited_response "2" "{}", "{}"))).
  - apply sample_encoded.
  - reflexivity.
  - intros i _. split; reflexivity.
  - intros i _. split; [reflexivity|]. eexists. reflexivity.
Defined.

Lemma CreateChatCompletion_three_waits_witness :
  exists w,
    Sample.run (Sample.client_with (Sample.limited_then_ok 3 "1") true 5000)
      (Sample.request false false)
    = Some (Return (Some (@Build_ChatCompletionResponse Sample.types
                            "" "" 0 "" "" []
                            (@Build_Usage Sample.types 0 0 0 0 0 0)), None), w) /\
    slept w = [1000 * Millisecond; 1000 * Millisecond; 1000 * Millisecond] /\
    sent w = [Sample.wire; Sample.wire; Sample.wire; Sample.wire].
Proof.
  apply (@CreateChatCompletion_three_waits Sample.types Sample.codec _ _ Sample.wire
           (fun i => if (i <? 3)%nat
                     then (Sample.limited_response "1" "{}", "{}")
                     else (Sample.ok_response "{}", "{}"))).
  - apply sample_encoded.
  - reflexivity.
  - reflexivity.
  - intros i _. unfold answers, Sample.client_with, NewClient, Sample.limited_then_ok.
    cbn [httpClient]. destruct (i <? 3)%nat; split; reflexivity.
  - intros i Hi. apply Nat.ltb_lt in Hi. rewrite Hi.
    split; [reflexivity|]. eexists. reflexivity.
  - intros i Hi. apply Nat.ltb_lt in Hi. rewrite Hi. reflexivity.
  - reflexivity.
  - reflexivity.
Defined.

Lemma CreateChatCompletion_no_wait_witness :
  exists e w,
    Sample.run (Sample.client_with (Sample.always_limited "1" "{}") false 5000)
      (Sample.request false false) = Some (Return (None, Some e), w) /\
    error_reports e 429 "{}" /\ sent w = [Sample.wire] /\ slept w = [] /\
    e = ErrRetryExhausted 6 5 429 "{}" (Sample.limited_response "1" "{}").
Proof.
  apply (@CreateChatCompletion_no_wait Sample.types Sample.codec
           (Sample.client_with (Sample.always_limited "1" "{}") false 5000)
           (Sample.request false false) Sample.wire
           (Sample.limited_response "1" "{}") "{}").
  - apply sample_encoded.
  - reflexivity.
  - split; reflexivity.
  - reflexivity.
Defined.

(** Waiting disabled and a 429 answer with the body [{}], which decodes as
    a response: the call returns the retry-budget error, not that body. *)
Lemma CreateChatCompletion_no_wait_counterexample :
  Sample.run (Sample.client_with (Sample.always_limited "1" "{}") false 5000)
    (Sample.request false false)
  = Some (Return (None, Some (ErrRetryExhausted 6 5 429 "{}"
                                (Sample.limited_response "1" "{}"))),
          EvSend Sample.wire :: replicate 5 (EvPrint LogSkipWaiting)) /\
  (exists payload,
     @json_Unmarshal_ChatCompletionResponse _ Sample.codec "{}" = inl payload /\
     forall w,
       Sample.run (Sample.client_with (Sample.always_limited "1" "{}") false 5000)
         (Sample.request false false)
       <> Some (Return (Some payload, None), w)).
Proof.
  split; [by vm_compute|]. eexists. split; [reflexivity|].
  intros w. by vm_compute.
Qed.

Lemma CreateChatCompletion_undecodable_witness :
  exists e w,
    Sample.run (Sample.client_with
                  (fun n _ => inl (Sample.limited_response "1"
                                     (if (n <? 2)%nat then "{}" else "<html>")))
                  true 5000)
      (Sample.request false false) = Some (Return (None, Some e), w) /\
    error_reports e 429 "<html>" /\
    w = run_trace (Sample.client_with
                     (fun n _ => inl (Sample.limited_response "1"
                                        (if (n <? 2)%nat then "{}" else "<html>")))
                     true 5000) Sample.wire
          [Sample.limited_response "1" "{}"; Sample.limited_response "1" "{}"] /\
    sent w = replicate 3 Sample.wire /\ length (slept w) = 2%nat.
Proof.
  apply (@CreateChatCompletion_undecodable Sample.types Sample.codec _ _ Sample.wire
           (fun n => (Sample.limited_response "1"
                        (if (n <? 2)%nat then "{}" else "<html>"),
                      if (n <? 2)%nat then "{}" else "<html>"))
           2 "invalid character '<' looking for beginning of value").
  - apply sample_encoded.
  - lia.
  - by right.
  - intros i _. split; reflexivity.
  - intros i Hi. apply Nat.ltb_lt in Hi. cbn [fst snd]. rewrite Hi.
    split; [reflexivity|]. eexists. reflexivity.
  - reflexivity.
  - reflexivity.
Defined.

Lemma CreateChatCompletion_wait_duration_witness :
  0 <= Z.min (7 * 1000) 5000 * Millisecond /\
  exists o rest,
    Sample.run (Sample.client_with (Sample.limited_then_ok 3 "7") true 5000)
      (Sample.request false false)
    = Some (o, run_trace (Sample.client_with (Sample.limited_then_ok 3 "7") true 5000)
                 Sample.wire [Sample.limited_response "7" "{}"] ++
               [EvPrint (LogRetryAfter (7 * 1000));
                EvSleep (Z.min (7 * 1000) 5000 * Millisecond);
                EvPrint LogRetryingNow;
                EvSend Sample.wire] ++ rest).
Proof.
  apply (@CreateChatCompletion_wait_duration Sample.types Sample.codec
           (Sample.client_with (Sample.limited_then_ok 3 "7") true 5000)
           (Sample.request false false) Sample.wire
           (fun i => if (i <? 3)%nat
                     then (Sample.limited_response "7" "{}", "{}")
                     else (Sample.ok_response "{}", "{}")) 1 7).
  - apply sample_encoded.
  - reflexivity.
  - lia.
  - intros i _. unfold answers, Sample.client_with, NewClient, Sample.limited_then_ok.
    cbn [httpClient]. destruct (i <? 3)%nat; split; reflexivity.
  - intros i Hi. assert ((i <? 3)%nat = true) as -> by (apply Nat.ltb_lt; lia).
    split; [reflexivity|]. eexists. reflexivity.
  - reflexivity.
  - lia.
  - by vm_compute.
  - by vm_compute.
  - by vm_compute.
Defined.

(** A negative [retry-after]: the duration passed to [time.Sleep] is
    negative, and [time.Sleep] returns at once for such a duration. *)
Lemma CreateChatCompletion_negative_header :
  Atoi "-2" = (-2, None) /\
  slept <$> (snd <$> Sample.run
               (Sample.client_with (Sample.limited_then_ok 1 "-2") true 5000)
               (Sample.request false false))
  = Some [-2000 * Millisecond].
Proof. by vm_compute. Qed.

(** A [retry-after] of 10^16 seconds: the product S*1000 wraps around to a
    negative [int], the ceiling of 5000 ms is not applied, and the duration
    passed to [time.Sleep] wraps again, to about fifty years. *)
Lemma CreateChatCompletion_wait_duration_counterexample :
  Atoi "10000000000000000" = (10000000000000000, None) /\
  slept <$> (snd <$> Sample.run
               (Sample.client_with (Sample.limited_then_ok 1 "10000000000000000") true 5000)
               (Sample.request false false))
  = Some [1590897978359414784] /\
  1590897978359414784 <> Z.min (10000000000000000 * 1000) 5000 * Millisecond.
Proof. by vm_compute. Qed.

(** * Every run of the client *)

Section ClientRuns.
Context {GT : GoTypes} {CD : Codec}.
Implicit Types (c : client) (req : ChatCompletionRequest) (hr : Request).
Implicit Types (w : World) (r : Response) (body : string).

(** ** Requests that cannot be encoded *)

Lemma encoded_or_not c req :
  (exists hr, encoded c req hr) \/ (forall hr, ~ encoded c req hr).
Proof.
  unfold encoded. destruct (Stream req); [right; by intros hr [? _]|].
  destruct (json_Marshal req) as [data|e] eqn:Hm;
    [|right; by intros hr (_ & ? & ? & ? & _)].
  destruct (url_Parse (client_baseURL c +:+ "/v1/chat/completions")) as [u|e] eqn:Hu;
    [|right; by intros hr (_ & ? & ? & _ & ? & _)].
  left. eexists. split; [done|]. by eexists _, _.
Qed.

Lemma encoded_unique c req hr hr' :
  encoded c req hr -> encoded c req hr' -> hr = hr'.
Proof.
  intros (_ & d & u & Hd & Hu & ->) (_ & d' & u' & Hd' & Hu' & ->). congruence.
Qed.

Lemma makeReq_not_encoded c req w :
  (forall hr, ~ encoded c req hr) ->
  exists e, makeReq c req w = ((None, "", Some e), w).
Proof.
  intros Hno. unfold makeReq, http_NewRequest.
  destruct (Stream req) eqn:Hs; [by eauto|].
  destruct (json_Marshal req) as [data|e] eqn:Hm; [|by eauto].
  destruct (url_Parse _) as [u|e] eqn:Hu; [|by eauto].
  exfalso. eapply Hno. split; [done|]. by eexists _, _.
Qed.

(** A successful [makeReq] encoded the request. *)
Lemma makeReq_success_encoded c req w r body err w' :
  makeReq c req w = ((Some r, body, err), w') ->
  exists hr, encoded c req hr /\ answers c hr (length (sent w)) r body /\
             err = None /\ w' = w ++ [EvSend hr].
Proof.
  intros H. destruct (encoded_or_not c req) as [[hr Henc]|Hno].
  - exists hr. split; [done|]. rewrite (makeReq_encoded _ _ _ _ Henc) in H.
    unfold answers. destruct (httpClient c _ hr) as [r'|]; [|by inversion H].
    destruct (Body r') eqn:Hb; inversion H; subst. by rewrite Hb.
  - destruct (makeReq_not_encoded c req w Hno) as [e He]. congruence.
Qed.

(** ** The loop with waiting enabled *)

Lemma limited_prefix_snoc c hr (rs : list Response) r body :
  limited_prefix c hr rs -> answers c hr (length rs) r body ->
  StatusCode r = StatusTooManyRequests ->
  limited_prefix c hr (rs ++ [r]).
Proof.
  intros Hrs [Hr _] Hcode i x Hi.
  destruct (decide (i < length rs)%nat) as [Hlt|Hge].
  - rewrite lookup_app_l in Hi by done. by apply Hrs.
  - rewrite lookup_app_r in Hi by lia.
    destruct (i - length rs)%nat eqn:Hd; [|by destruct n].
    injection Hi as <-. by replace i with (length rs) by lia.
Qed.

Lemma loop_test_limited r (retry : Z) :
  (StatusCode r =? StatusTooManyRequests) && (retry <=? maxRetry) = true ->
  StatusCode r = StatusTooManyRequests /\ retry <= maxRetry.
Proof. intros [?%Z.eqb_eq ?%Z.leb_le]%andb_prop. done. Qed.

Lemma loop_test_other r (retry : Z) :
  (StatusCode r =? StatusTooManyRequests) && (retry <=? maxRetry) = false ->
  retry <= maxRetry -> StatusCode r <> StatusTooManyRequests.
Proof.
  intros H Hle Hcode. rewrite Hcode, Z.eqb_refl in H.
  destruct (Z.leb_spec retry maxRetry); [discriminate | lia].
Qed.

Lemma retry_loop_wait_shape c req hr (fuel : nat) :
  encoded c req hr -> wait_on_ratelimit c = true ->
  forall (rs : list Response) r body flow w',
    (length rs <= 5)%nat ->
    answers c hr (length rs) r body ->
    limited_prefix c hr rs ->
    retry_loop fuel c req (Z.of_nat (length rs)) (Some r) body (run_trace c hr rs)
    = Some (flow, w') ->
    exists rs',
      w' = run_trace c hr rs' /\ (length rs' <= 5)%nat /\
      limited_prefix c hr rs' /\
      match flow with
      | Next _ resp' body' =>
          exists r', resp' = Some r' /\ answers c hr (length rs') r' body' /\
                     StatusCode r' <> StatusTooManyRequests
      | Done (Return res) =>
          exists r' body' e,
            answers c hr (length rs') r' body' /\
            StatusCode r' = StatusTooManyRequests /\
            res = (None, Some e) /\ error_reports e 429 body'
      | Done Panic => forall r' body', ~ answers c hr (length rs') r' body'
      end.
Proof.
  intros Henc Hwait.
  induction fuel as [|fuel IH]; intros rs r body flow w' Hlen Hans Hrs;
    cbn [retry_loop];
    destruct ((StatusCode r =? StatusTooManyRequests)
              && (Z.of_nat (length rs) <=? maxRetry)) eqn:Htest;
    try discriminate;
    try (intros [= <- <-]; exists rs; repeat (split; [done|]);
         exists r; repeat (split; [done|]);
         apply (loop_test_other _ _ Htest); unfold maxRetry; lia).
  apply loop_test_limited in Htest as [Hcode _].
  destruct (decide (length rs = 5%nat)) as [H5|H5].
  { rewrite retry_body_exhausted by (unfold maxRetry; lia).
    intros [= <- <-]. exists rs. repeat (split; [done|]).
    exists r, body. eexists. by rewrite Hcode. }
  destruct (json_Unmarshal_ErrorResponse body) as [er|msg] eqn:Hdec.
  2:{ rewrite (retry_body_undecodable _ _ _ _ _ _ msg) by (done || unfold maxRetry; lia).
      intros [= <- <-]. exists rs. repeat (split; [done|]).
      exists r, body. eexists. by rewrite Hcode. }
  rewrite (retry_body_wait _ _ hr _ _ _ _ Henc Hwait);
    [|unfold maxRetry; lia|by eexists].
  rewrite sent_run_trace, length_replicate, <- run_trace_snoc.
  assert (limited_prefix c hr (rs ++ [r])) as Hrs'
    by (by eapply limited_prefix_snoc).
  assert (length (rs ++ [r]) = S (length rs)) as Hlen'
    by (rewrite length_app; cbn; lia).
  destruct (httpClient c (S (length rs)) hr) as [r2|] eqn:Hdo.
  - destruct (Body r2) as [body2|] eqn:Hb.
    + replace (Z.of_nat (length rs) + 1) with (Z.of_nat (length (rs ++ [r]))) by lia.
      intros Hloop. apply IH in Hloop; [done|lia| |done].
      rewrite Hlen'. by split.
    + intros [= <- <-]. exists (rs ++ [r]). split; [done|]. split; [lia|].
      split; [done|]. rewrite Hlen'. intros r' body' [Hr' Hb']. congruence.
  - intros [= <- <-]. exists (rs ++ [r]). split; [done|]. split; [lia|].
    split; [done|]. rewrite Hlen'. intros r' body' [Hr' _]. congruence.
Qed.

(** ** The loop with waiting disabled *)

Lemma retry_loop_no_wait_shape c req (fuel : nat) :
  wait_on_ratelimit c = false ->
  forall (retry : Z) r body w flow w',
    retry <= maxRetry ->
    retry_loop fuel c req retry (Some r) body w = Some (flow, w') ->
    exists k : nat,
      w' = w ++ replicate k (EvPrint LogSkipWaiting) /\
      match flow with
      | Next _ resp' body' =>
          resp' = Some r /\ body' = body /\
          StatusCode r <> StatusTooManyRequests
      | Done (Return res) =>
          exists e, StatusCode r = StatusTooManyRequests /\
                    res = (None, Some e) /\ error_reports e 429 body
      | Done Panic => False
      end.
Proof.
  intros Hwait.
  induction fuel as [|fuel IH]; intros retry r body w flow w' Hle;
    cbn [retry_loop];
    destruct ((StatusCode r =? StatusTooManyRequests) && (retry <=? maxRetry))
      eqn:Htest;
    try discriminate;
    try (intros [= <- <-]; exists 0%nat; split; [by rewrite app_nil_r|];
         repeat (split; [done|]); by apply (loop_test_other _ _ Htest)).
  apply loop_test_limited in Htest as [Hcode _].
  unfold retry_body. destruct (Z.ltb_spec maxRetry (retry + 1)).
  { intros [= <- <-]. exists 0%nat. split; [by rewrite app_nil_r|].
    eexists. by rewrite Hcode. }
  destruct (json_Unmarshal_ErrorResponse body).
  2:{ intros [= <- <-]. exists 0%nat. split; [by rewrite app_nil_r|].
      eexists. by rewrite Hcode. }
  destruct (Atoi _) as [retrys [err|]]; rewrite Hwait.
  - intros [= <- <-]. exists 1%nat. split; [done|]. eexists. by rewrite Hcode.
  - intros Hloop. apply IH in Hloop as (k & -> & Hflow); [|lia].
    exists (S k). split; [unfold fmt_Println; by rewrite <- app_assoc|done].
Qed.

(** ** How a call ends *)

Lemma CreateChatCompletion_wait_cases c req hr o w :
  encoded c req hr -> wait_on_ratelimit c = true ->
  CreateChatCompletion c req empty_world = Some (o, w) ->
  exists rs,
    w = run_trace c hr rs /\ (length rs <= 5)%nat /\
    limited_prefix c hr rs /\ outcome_of c hr (length rs) o.
Proof.
  intros Henc Hwait. unfold CreateChatCompletion.
  rewrite (makeReq_encoded _ _ _ _ Henc). cbn [sent empty_world omap list_omap length app].
  assert (limited_prefix c hr []) as Hnil by (by intros i x).
  destruct (httpClient c 0%nat hr) as [r|] eqn:Hdo.
  2:{ intros [= <- <-]. exists []. repeat (split; [done || cbn; lia|]).
      intros r body [? _]. cbn in *. congruence. }
  destruct (Body r) as [body|] eqn:Hb.
  2:{ intros [= <- <-]. exists []. repeat (split; [done || cbn; lia|]).
      intros r' body' [? ?]. cbn in *. congruence. }
  assert (answers c hr 0%nat r body) as Hans by done.
  destruct (negb (StatusCode r =? StatusOK)) eqn:Hok.
  - destruct (retry_loop _ c req 0 (Some r) body [EvSend hr])
      as [[flow w1]|] eqn:Hloop; [|discriminate].
    apply (retry_loop_wait_shape c req hr _ Henc Hwait [] r body) in Hloop
      as (rs & -> & Hlen & Hrs & Hflow); [|cbn; lia|done|done].
    destruct flow as [retry' resp' body'|[res|]].
    + destruct Hflow as (r' & -> & Hans' & Hcode').
      intros H.
      assert (o = Return (decode_result body') /\ w = run_trace c hr rs) as [-> ->].
      { unfold decode_result.
        destruct (json_Unmarshal_ChatCompletionResponse body'); by inversion H. }
      exists rs. repeat (split; [done|]).
      exists r', body'. split; [done|]. by left.
    + intros [= <- <-]. exists rs. repeat (split; [done|]).
      destruct Hflow as (r' & body' & e & ? & ? & ? & ?).
      exists r', body'. split; [done|]. right. split; [done|]. by exists e.
    + intros [= <- <-]. exists rs. by repeat (split; [done|]).
  - intros H.
    assert (o = Return (decode_result body) /\ w = [EvSend hr]) as [-> ->].
    { unfold decode_result.
      destruct (json_Unmarshal_ChatCompletionResponse body); by inversion H. }
    exists []. repeat (split; [done || cbn; lia|]).
    exists r, body. split; [done|]. left. split; [|done].
    apply negb_false_iff, Z.eqb_eq in Hok. rewrite Hok. done.
Qed.

Lemma CreateChatCompletion_no_wait_cases c req hr o w :
  encoded c req hr -> wait_on_ratelimit c = false ->
  CreateChatCompletion c req empty_world = Some (o, w) ->
  exists k : nat,
    w = EvSend hr :: replicate k (EvPrint LogSkipWaiting) /\
    outcome_of c hr 0%nat o.
Proof.
  intros Henc Hwait. unfold CreateChatCompletion.
  rewrite (makeReq_encoded _ _ _ _ Henc). cbn [sent empty_world omap list_omap length app].
  destruct (httpClient c 0%nat hr) as [r|] eqn:Hdo.
  2:{ intros [= <- <-]. exists 0%nat. split; [done|].
      intros r body [? _]. congruence. }
  destruct (Body r) as [body|] eqn:Hb.
  2:{ intros [= <- <-]. exists 0%nat. split; [done|].
      intros r' body' [? ?]. congruence. }
  assert (answers c hr 0%nat r body) as Hans by done.
  destruct (negb (StatusCode r =? StatusOK)) eqn:Hok.
  - destruct (retry_loop _ c req 0 (Some r) body [EvSend hr])
      as [[flow w1]|] eqn:Hloop; [|discriminate].
    apply (retry_loop_no_wait_shape c req _ Hwait) in Hloop
      as (k & -> & Hflow); [|unfold maxRetry; lia].
    destruct flow as [retry' resp' body'|[res|]]; [| |done].
    + destruct Hflow as (-> & -> & Hcode). intros H.
      assert (o = Return (decode_result body) /\
              w = [EvSend hr] ++ replicate k (EvPrint LogSkipWaiting)) as [-> ->].
      { unfold decode_result.
        destruct (json_Unmarshal_ChatCompletionResponse body); by inversion H. }
      exists k. split; [done|].
      exists r, body. split; [done|]. by left.
    + intros [= <- <-]. exists k. split; [done|].
      destruct Hflow as (e & ? & ? & ?).
      exists r, body. split; [done|]. right. split; [done|]. by exists e.
  - intros H.
    assert (o = Return (decode_result body) /\ w = [EvSend hr]) as [-> ->].
    { unfold decode_result.
      destruct (json_Unmarshal_ChatCompletionResponse body); by inversion H. }
    exists 0%nat. split; [done|].
    exists r, body. split; [done|]. left. split; [|done].
    apply negb_false_iff, Z.eqb_eq in Hok. rewrite Hok. done.
Qed.

(** ** What [makeReq] hands back and sends *)

(** X1. [makeReq] returns a nil response with an empty body and an error,
    or a response with no error: never both, never neither. *)
Theorem makeReq_response_xor_error c req w :
  let '((resp, body, err), _) := makeReq c req w in
  (resp = None /\ body = "" /\ err <> None) \/ (resp <> None /\ err = None).
Proof.
  destruct (makeReq_cases c req w) as [(e & w' & ->)|(r & body & w' & ->)].
  - by left.
  - by right.
Qed.

(** Header names are looked up without regard to the case of their
    letters. *)
Lemma toLower_canonical (c : ascii) :
  toUpper (toLower c) = toUpper c /\ toLower (toLower c) = toLower c /\
  Ascii.eqb (toLower c) "-" = Ascii.eqb c "-" /\
  validHeaderFieldByte (toLower c) = validHeaderFieldByte c.
Proof. by destruct c as [[] [] [] [] [] [] [] []]; vm_compute. Qed.

Lemma canonicalize_lower_case (upper : bool) (s : string) :
  canonicalize upper (lower_case s) = canonicalize upper s.
Proof.
  revert upper. induction s as [|a s IH]; intros upper; [done|].
  cbn [lower_case canonicalize].
  destruct (toLower_canonical a) as (Hu & Hl & He & _).
  rewrite He, IH. by destruct upper; rewrite ?Hu, ?Hl.
Qed.

Lemma valid_lower_case (s : string) :
  string_forall validHeaderFieldByte (lower_case s)
  = string_forall validHeaderFieldByte s.
Proof.
  induction s as [|a s IH]; [done|]. cbn [lower_case string_forall].
  destruct (toLower_canonical a) as (_ & _ & _ & Hv). by rewrite Hv, IH.
Qed.

Lemma CanonicalMIMEHeaderKey_any_case (k1 k2 : string) :
  lower_case k1 = lower_case k2 ->
  string_forall validHeaderFieldByte k2 = true ->
  CanonicalMIMEHeaderKey k1 = CanonicalMIMEHeaderKey k2.
Proof.
  intros Hk Hv. unfold CanonicalMIMEHeaderKey.
  rewrite <- (valid_lower_case k1), Hk, valid_lower_case, Hv.
  by rewrite <- (canonicalize_lower_case _ k1), Hk, canonicalize_lower_case.
Qed.

Lemma Header_Get_any_case (h : Header) (k1 k2 : string) :
  lower_case k1 = lower_case k2 ->
  string_forall validHeaderFieldByte k2 = true ->
  Header_Get h k1 = Header_Get h k2.
Proof.
  intros Hk Hv. unfold Header_Get.
  by rewrite (CanonicalMIMEHeaderKey_any_case k1 k2).
Qed.

(** X2. When [makeReq] returns a response it has handed exactly one request
    to the transport: a POST of the marshalled request to the parsed
    [baseURL/v1/chat/completions], with the JSON content type and the
    bearer key, which [Header.Get] finds under every name that is
    [Content-Type], respectively [Authorization], up to the case of its
    letters. *)
Theorem makeReq_sends_authenticated_post c req w r body w' :
  makeReq c req w = ((Some r, body, None), w') ->
  exists hr data,
    w' = w ++ [EvSend hr] /\
    httpClient c (length (sent w)) hr = inl r /\ Body r = inl body /\
    Stream req = false /\ json_Marshal req = inl data /\
    Method hr = "POST" /\ ReqBody hr = data /\
    url_Parse (client_baseURL c +:+ "/v1/chat/completions") = inl (URL hr) /\
    (forall k, lower_case k = "content-type" ->
       Header_Get (ReqHeader hr) k = "application/json") /\
    (forall k, lower_case k = "authorization" ->
       Header_Get (ReqHeader hr) k = "Bearer " +:+ apiKey c).
Proof.
  intros H. apply makeReq_success_encoded in H as (hr & Henc & [Hr Hb] & _ & ->).
  destruct Henc as (Hs & data & u & Hm & Hu & ->).
  eexists _, data. repeat (split; [done|]). cbn [URL ReqHeader].
  split; intros k Hk.
  - rewrite (Header_Get_any_case _ k "content-type"); [|done|done].
    unfold Header_Get.
    change (CanonicalMIMEHeaderKey "content-type") with "Content-Type".
    by rewrite lookup_insert_eq.
  - rewrite (Header_Get_any_case _ k "authorization"); [|done|done].
    unfold Header_Get.
    change (CanonicalMIMEHeaderKey "authorization") with "Authorization".
    by rewrite lookup_insert_ne, lookup_singleton_eq.
Qed.

(** X3. A request with the [Stream] flag, one that [json.Marshal] refuses,
    or a URL that does not parse: [makeReq] returns an error and nothing
    reaches the transport. *)
Theorem makeReq_unencodable_no_request c req w :
  Stream req = true \/ (exists e, json_Marshal req = inr e) \/
  (exists e, url_Parse (client_baseURL c +:+ "/v1/chat/completions") = inr e) ->
  exists err, makeReq c req w = ((None, "", Some err), w).
Proof.
  intros H. apply makeReq_not_encoded.
  intros hr (Hs & data & u & Hm & Hu & _).
  destruct H as [?|[[e ?]|[e ?]]]; congruence.
Qed.

(** X4. A client built by [NewClient] posts to the fixed endpoint whatever
    its arguments are, and its key ends up in the bearer header. *)
Theorem NewClient_posts_to_fixed_endpoint (key : string) (t : HTTPClient)
    (wait : bool) (maxMs : Z) req w (data u : string) :
  Stream req = false -> json_Marshal req = inl data ->
  url_Parse "https://api.groq.com/openai/v1/chat/completions" = inl u ->
  (makeReq (NewClient key t wait maxMs) req w).2 =
    w ++ [EvSend {| Method := "POST"; URL := u;
                    ReqHeader := {[ "Content-Type" := ["application/json"];
                                    "Authorization" := ["Bearer " +:+ key] ]};
                    ReqBody := data |}].
Proof.
  intros Hs Hm Hu. erewrite makeReq_encoded; [done|].
  split; [done|]. by exists data, u.
Qed.

(** ** Panics *)

Lemma CreateChatCompletion_makeReq_error_panics_aux c req w resp body e w' :
  makeReq c req w = ((resp, body, Some e), w') ->
  CreateChatCompletion c req w = Some (Panic, w').
Proof.
  intros H. unfold CreateChatCompletion. rewrite H.
  destruct (makeReq_cases c req w) as [(e2 & w2 & H2)|(r & body2 & w2 & H2)];
    rewrite H2 in H; by inversion H.
Qed.

(** X5. Whatever error the first [makeReq] returns (stream flag, marshal,
    URL, transport, or reading the body), [CreateChatCompletion] panics on
    the nil response, with the trace [makeReq] left. *)
Theorem CreateChatCompletion_makeReq_error_panics c req w resp body e w' :
  makeReq c req w = ((resp, body, Some e), w') ->
  CreateChatCompletion c req w = Some (Panic, w').
Proof.
  apply CreateChatCompletion_makeReq_error_panics_aux.
Qed.

(** X6. When the request can be encoded (no [Stream] flag, [json.Marshal]
    and the parse of the URL succeed) and the transport gives every
    request a readable answer, the call does not panic: it returns. *)
Theorem CreateChatCompletion_answered_no_panic c req hr :
  encoded c req hr ->
  (forall n, exists r body, answers c hr n r body) ->
  exists res w, CreateChatCompletion c req empty_world = Some (Return res, w).
Proof.
  intros Henc Hall.
  destruct (CreateChatCompletion_total c req empty_world) as (o & w & H).
  assert (exists n, outcome_of c hr n o) as [n Ho].
  { destruct (wait_on_ratelimit c) eqn:Hwait.
    - destruct (CreateChatCompletion_wait_cases _ _ _ _ _ Henc Hwait H)
        as (rs & _ & _ & _ & Ho). by eexists.
    - destruct (CreateChatCompletion_no_wait_cases _ _ _ _ _ Henc Hwait H)
        as (k & _ & Ho). by eexists. }
  destruct o as [res|]; [by eauto|].
  destruct (Hall n) as (r & body & Hans). by destruct (Ho r body).
Qed.

(** ** Answers that are not a 429 *)

(** X7. After [k] retried 429 answers ([k] from 0 to 5), an answer with any
    other status, 200 or not, ends the call: its body is decoded as the
    response (or the decoding error is returned), with [k + 1] requests and
    [k] sleeps in all. *)
Theorem CreateChatCompletion_other_status c req hr
    (a : nat -> Response * string) (k : nat) :
  encoded c req hr -> (k <= 5)%nat ->
  k = 0%nat \/ wait_on_ratelimit c = true ->
  script_answers c hr a k -> script_limited a k ->
  StatusCode (a k).1 <> StatusTooManyRequests ->
  CreateChatCompletion c req empty_world
  = Some (Return (decode_result (a k).2), run_trace c hr (answered a k)) /\
  sent (run_trace c hr (answered a k)) = replicate (S k) hr /\
  length (slept (run_trace c hr (answered a k))) = k.
Proof.
  intros Henc Hk Hwait Hans Hlim Hcode.
  split; [|by rewrite sent_run_trace, slept_run_trace_length, answered_length].
  assert (retry_loop (S (5 - k)) c req (Z.of_nat k) (Some (a k).1) (a k).2
            (run_trace c hr (answered a k))
          = Some (Next (Z.of_nat k) (Some (a k).1) (a k).2,
                  run_trace c hr (answered a k))) as Hexit.
  { cbn [retry_loop].
    destruct (Z.eqb_spec (StatusCode (a k).1) StatusTooManyRequests); done. }
  unfold CreateChatCompletion.
  rewrite (CreateChatCompletion_first _ _ hr (a 0%nat).1 (a 0%nat).2 Henc
             (Hans 0%nat ltac:(lia))).
  change (run_trace c hr []) with (run_trace c hr (answered a 0)).
  destruct (negb (StatusCode (a 0%nat).1 =? StatusOK)) eqn:Hok.
  - replace (Z.to_nat (maxRetry + 1)) with (k + S (5 - k))%nat
      by (unfold maxRetry; lia).
    change (retry_loop (k + S (5 - k)) c req 0)
      with (retry_loop (k + S (5 - k)) c req (Z.of_nat 0)).
    rewrite (retry_loop_rounds c req hr a k (S (5 - k)) 0 Henc Hwait);
      [|done|done|lia].
    cbn [Nat.add]. rewrite Hexit. unfold decode_result.
    by destruct (json_Unmarshal_ChatCompletionResponse (a k).2).
  - destruct k as [|k].
    + unfold decode_result.
      by destruct (json_Unmarshal_ChatCompletionResponse (a 0%nat).2).
    + destruct (Hlim 0%nat ltac:(lia)) as [Hc _]. by rewrite Hc in Hok.
Qed.

(** ** Headers that are not integers *)

Lemma Atoi_syntax_zero (s num : string) :
  (Atoi s).2 = Some (NumError num ErrSyntax) -> (Atoi s).1 = 0.
Proof.
  unfold Atoi, ParseInt. destruct s as [|c0 rest]; [done|].
  destruct (ParseUint _) as [un [[]|]]; [done| |];
    repeat (match goal with |- context [if ?b then _ else _] => destruct b end);
    cbn; congruence.
Qed.

(** A retried 429 answer is followed by its round of waiting, whatever
    comes after. *)
Lemma CreateChatCompletion_round c req hr (a : nat -> Response * string)
    (k : nat) :
  encoded c req hr -> wait_on_ratelimit c = true -> (k < 5)%nat ->
  script_answers c hr a k -> script_limited a (S k) ->
  exists o rest,
    CreateChatCompletion c req empty_world =
      Some (o, run_trace c hr (answered a k) ++
               waiting_round c hr (a k).1 ++ rest).
Proof.
  intros Henc Hwait Hk Hans Hlim.
  unfold CreateChatCompletion.
  rewrite (CreateChatCompletion_first _ _ hr (a 0%nat).1 (a 0%nat).2 Henc
             (Hans 0%nat ltac:(lia))).
  destruct (Hlim 0%nat ltac:(lia)) as [-> _].
  cbn [negb Z.eqb StatusTooManyRequests StatusOK Pos.eqb].
  replace (Z.to_nat (maxRetry + 1)) with (k + S (5 - k))%nat
    by (unfold maxRetry; lia).
  change (run_trace c hr []) with (run_trace c hr (answered a 0)).
  change (retry_loop (k + S (5 - k)) c req 0)
    with (retry_loop (k + S (5 - k)) c req (Z.of_nat 0)).
  rewrite (retry_loop_rounds c req hr a k (S (5 - k)) 0 Henc (or_intror Hwait));
    [|done|intros i Hi; apply Hlim; lia|lia].
  cbn [Nat.add retry_loop].
  destruct (Hlim k ltac:(lia)) as [Hcode Hdec]. rewrite Hcode, Z.eqb_refl.
  destruct (Z.leb_spec (Z.of_nat k) maxRetry); [|unfold maxRetry in *; lia].
  cbn [andb].
  rewrite (retry_body_wait _ _ hr _ _ _ _ Henc Hwait); [|unfold maxRetry; lia|done].
  set (w1 := run_trace c hr (answered a k) ++ waiting_round c hr (a k).1).
  assert (forall o : Outcome (option ChatCompletionResponse * option error),
            exists o' rest,
            Some (o, w1) = Some (o', run_trace c hr (answered a k) ++
                                     waiting_round c hr (a k).1 ++ rest)) as Hstop.
  { intros o. exists o, []. by rewrite app_nil_r. }
  destruct (httpClient c _ hr) as [r'|];
    [destruct (Body r') as [body'|]|]; try apply Hstop.
  destruct (retry_loop_total (5 - k) c req (Z.of_nat k + 1) (Some r') body' w1)
    as [[flow w'] Hloop]; [unfold maxRetry; lia|].
  rewrite Hloop. apply retry_loop_extends in Hloop as [rest ->].
  subst w1. rewrite <- app_assoc.
  destruct flow as [retry2 resp2 body2|o]; [|by eexists _, _].
  destruct (json_Unmarshal_ChatCompletionResponse body2); by eexists _, _.
Qed.

(** X8. With waiting enabled and a ceiling that is not negative, a retried
    429 answer whose [retry-after] header is missing or is not a number
    ([Atoi] reports a syntax error) is no error: the call sleeps 0 ms and
    sends the request again at once. *)
Theorem CreateChatCompletion_malformed_header_retries c req hr
    (a : nat -> Response * string) (k : nat) (num : string) :
  encoded c req hr -> wait_on_ratelimit c = true -> (k < 5)%nat ->
  script_answers c hr a k -> script_limited a (S k) ->
  (Atoi (Header_Get (RespHeader (a k).1) "retry-after")).2
  = Some (NumError num ErrSyntax) ->
  0 <= max_wait_on_ratelimit_in_ms c ->
  exists o rest,
    CreateChatCompletion c req empty_world =
      Some (o, run_trace c hr (answered a k) ++
               [EvPrint (LogRetryAfter 0); EvSleep 0;
                EvPrint LogRetryingNow; EvSend hr] ++ rest).
Proof.
  intros Henc Hwait Hk Hans Hlim Hsyn Hmax.
  destruct (CreateChatCompletion_round c req hr a k Henc Hwait Hk Hans Hlim)
    as (o & rest & H).
  exists o, rest. rewrite H. do 3 f_equal.
  unfold waiting_round. rewrite (Atoi_syntax_zero _ _ Hsyn).
  change (int_mul 0 1000) with 0. by rewrite Z.min_l.
Qed.

(** X9. With waiting disabled, a first 429 answer with a decodable error
    body whose [retry-after] header is not an integer makes the call fail
    with the parse-retry-time error, after one request, one diagnostic
    line and no sleep. *)
Theorem CreateChatCompletion_no_wait_bad_header c req hr r body er (v : Z)
    (e : error) :
  encoded c req hr -> wait_on_ratelimit c = false ->
  answers c hr 0 r body -> StatusCode r = StatusTooManyRequests ->
  json_Unmarshal_ErrorResponse body = inl er ->
  Atoi (Header_Get (RespHeader r) "retry-after") = (v, Some e) ->
  CreateChatCompletion c req empty_world
  = Some (Return (None, Some (ErrParseRetryTime 429 body)),
          [EvSend hr; EvPrint LogSkipWaiting]).
Proof.
  intros Henc Hwait Hans Hcode Hdec Ha. unfold CreateChatCompletion.
  rewrite (CreateChatCompletion_first _ _ hr r body Henc Hans), Hcode.
  cbn [negb Z.eqb StatusTooManyRequests StatusOK Pos.eqb].
  change (Z.to_nat (maxRetry + 1)) with 6%nat. cbn [retry_loop].
  rewrite Hcode. cbn [Z.eqb StatusTooManyRequests Pos.eqb Z.leb Z.compare andb].
  unfold retry_body. cbn [Z.add Z.ltb Z.compare maxRetry Pos.compare Pos.compare_cont].
  by rewrite Hdec, Ha, Hwait, Hcode.
Qed.

(** ** Bounds that hold for every server *)

Lemma slept_run_trace c hr (rs : list Response) :
  slept (run_trace c hr rs) =
    (fun r =>
       Duration_mul
         (Z.min (int_mul (Atoi (Header_Get (RespHeader r) "retry-after")).1 1000)
                (max_wait_on_ratelimit_in_ms c)) Millisecond) <$> rs.
Proof.
  induction rs as [|r rs IH] using rev_ind; [reflexivity|].
  by rewrite run_trace_snoc, slept_app, IH, fmap_app.
Qed.

Lemma no_wait_trace_events hr (k : nat) :
  sent (EvSend hr :: replicate k (EvPrint LogSkipWaiting)) = [hr] /\
  slept (EvSend hr :: replicate k (EvPrint LogSkipWaiting)) = [].
Proof. apply (events_no_send_sleep [EvSend hr] k LogSkipWaiting). Qed.

(** X10. Whatever the server answers and however the client is set up, a
    call sends at most six requests, all of them the same request, and
    sleeps at most five times. *)
Theorem CreateChatCompletion_request_budget c req :
  exists o w hr (n : nat),
    CreateChatCompletion c req empty_world = Some (o, w) /\
    sent w = replicate n hr /\ (n <= 6)%nat /\ (length (slept w) <= 5)%nat.
Proof.
  destruct (CreateChatCompletion_total c req empty_world) as (o & w & H).
  exists o, w. destruct (encoded_or_not c req) as [[hr Henc]|Hno].
  - exists hr. destruct (wait_on_ratelimit c) eqn:Hwait.
    + destruct (CreateChatCompletion_wait_cases _ _ _ _ _ Henc Hwait H)
        as (rs & -> & Hlen & _).
      exists (S (length rs)). split; [done|].
      rewrite sent_run_trace, slept_run_trace_length. split; [done|]. split; lia.
    + destruct (CreateChatCompletion_no_wait_cases _ _ _ _ _ Henc Hwait H)
        as (k & -> & _).
      exists 1%nat. split; [done|].
      destruct (no_wait_trace_events hr k) as [-> ->].
      cbn. split; [done|]. split; lia.
  - exists {| Method := ""; URL := ""; ReqHeader := ∅; ReqBody := "" |}, 0%nat.
    destruct (makeReq_not_encoded c req empty_world Hno) as [e He].
    pose proof (CreateChatCompletion_makeReq_error_panics_aux _ _ _ _ _ _ _ He) as H'.
    rewrite H' in H. injection H as <- <-.
    split; [done|]. cbn. split; [done|]. split; lia.
Qed.

(** X11. With waiting disabled the call never sleeps and never sends a
    second request, whatever the server answers. *)
Theorem CreateChatCompletion_no_wait_single_request c req :
  wait_on_ratelimit c = false ->
  exists o w,
    CreateChatCompletion c req empty_world = Some (o, w) /\
    (length (sent w) <= 1)%nat /\ slept w = [].
Proof.
  intros Hwait.
  destruct (CreateChatCompletion_total c req empty_world) as (o & w & H).
  exists o, w. split; [done|].
  destruct (encoded_or_not c req) as [[hr Henc]|Hno].
  - destruct (CreateChatCompletion_no_wait_cases _ _ _ _ _ Henc Hwait H)
      as (k & -> & _).
    destruct (no_wait_trace_events hr k) as [-> ->].
    cbn. split; [lia|done].
  - destruct (makeReq_not_encoded c req empty_world Hno) as [e He].
    rewrite (CreateChatCompletion_makeReq_error_panics_aux _ _ _ _ _ _ _ He) in H.
    injection H as <- <-. cbn. split; [lia|done].
Qed.

(** X12. With waiting enabled, every call ends, and its trace is either
    empty, when the request cannot be encoded (the call then panics), or
    the first request followed by at most five rounds (diagnostic, sleep,
    diagnostic, the request again), one for each 429 answer it waited
    after, in the order of the answers. *)
Theorem CreateChatCompletion_wait_trace c req :
  wait_on_ratelimit c = true ->
  exists o w,
    CreateChatCompletion c req empty_world = Some (o, w) /\
    (((forall hr, ~ encoded c req hr) /\ o = Panic /\ w = []) \/
     (exists hr rs,
        encoded c req hr /\ w = run_trace c hr rs /\ (length rs <= 5)%nat /\
        limited_prefix c hr rs)).
Proof.
  intros Hwait.
  destruct (CreateChatCompletion_total c req empty_world) as (o & w & H).
  exists o, w. split; [done|].
  destruct (encoded_or_not c req) as [[hr Henc]|Hno].
  - right.
    destruct (CreateChatCompletion_wait_cases _ _ _ _ _ Henc Hwait H)
      as (rs & ? & ? & ? & _).
    by exists hr, rs.
  - left. destruct (makeReq_not_encoded c req empty_world Hno) as [e He].
    rewrite (CreateChatCompletion_makeReq_error_panics_aux _ _ _ _ _ _ _ He) in H.
    by injection H as <- <-.
Qed.

(** X13. A call returns a decoded response only from an answer that is not
    a 429: the answer to the last request it sent, whose body decodes to
    that response. *)
Theorem CreateChatCompletion_response_not_limited c req hr payload w :
  encoded c req hr ->
  CreateChatCompletion c req empty_world = Some (Return (Some payload, None), w) ->
  exists (n : nat) r body,
    length (sent w) = S n /\ answers c hr n r body /\
    StatusCode r <> StatusTooManyRequests /\
    json_Unmarshal_ChatCompletionResponse body = inl payload.
Proof.
  intros Henc H.
  assert (exists n : nat, length (sent w) = S n /\
            outcome_of c hr n (Return (Some payload, None))) as (n & Hn & Ho).
  { destruct (wait_on_ratelimit c) eqn:Hwait.
    - destruct (CreateChatCompletion_wait_cases _ _ _ _ _ Henc Hwait H)
        as (rs & -> & _ & _ & Ho).
      exists (length rs). by rewrite sent_run_trace, length_replicate.
    - destruct (CreateChatCompletion_no_wait_cases _ _ _ _ _ Henc Hwait H)
        as (k & -> & Ho).
      exists 0%nat.
      by destruct (no_wait_trace_events hr k) as [-> _]. }
  destruct Ho as (r & body & Hans & [[Hcode Hres]|[_ (e & Hres & _)]]);
    [|discriminate].
  exists n, r, body. repeat (split; [done|]). unfold decode_result in Hres.
  destruct (json_Unmarshal_ChatCompletionResponse body); congruence.
Qed.

(** X14. When a call returns, it returns a response or an error: never
    both, never neither. *)
Theorem CreateChatCompletion_response_xor_error c req resp err w :
  CreateChatCompletion c req empty_world = Some (Return (resp, err), w) ->
  (resp = None /\ err <> None) \/ (resp <> None /\ err = None).
Proof.
  intros H. destruct (encoded_or_not c req) as [[hr Henc]|Hno].
  - assert (exists n, outcome_of c hr n (Return (resp, err))) as [n Ho].
    { destruct (wait_on_ratelimit c) eqn:Hwait.
      - destruct (CreateChatCompletion_wait_cases _ _ _ _ _ Henc Hwait H)
          as (rs & _ & _ & _ & Ho). by eexists.
      - destruct (CreateChatCompletion_no_wait_cases _ _ _ _ _ Henc Hwait H)
          as (k & _ & Ho). by eexists. }
    destruct Ho as (r & body & _ & [[_ Hres]|[_ (e & Hres & _)]]).
    + unfold decode_result in Hres.
      destruct (json_Unmarshal_ChatCompletionResponse body);
        injection Hres as -> ->; [by right | by left].
    + injection Hres as -> ->. by left.
  - destruct (makeReq_not_encoded c req empty_world Hno) as [e He].
    by rewrite (CreateChatCompletion_makeReq_error_panics_aux _ _ _ _ _ _ _ He) in H.
Qed.

(** X15. With waiting enabled and a ceiling between 0 and 9223372036854 ms,
    when the [retry-after] value of every 429 answer of the server is read
    as a number of seconds between 0 and 9223372036854775 (0 for a missing
    or non-numeric header), every sleep of the call lasts between 0 and
    the ceiling. *)
Theorem CreateChatCompletion_sleeps_within_ceiling c req hr :
  encoded c req hr -> wait_on_ratelimit c = true ->
  0 <= max_wait_on_ratelimit_in_ms c <= 9223372036854 ->
  (forall n r, httpClient c n hr = inl r ->
     StatusCode r = StatusTooManyRequests ->
     0 <= (Atoi (Header_Get (RespHeader r) "retry-after")).1 <= 9223372036854775) ->
  exists o w,
    CreateChatCompletion c req empty_world = Some (o, w) /\
    Forall (fun d => 0 <= d <= max_wait_on_ratelimit_in_ms c * Millisecond)
           (slept w).
Proof.
  intros Henc Hwait Hmax Hhdr.
  destruct (CreateChatCompletion_total c req empty_world) as (o & w & H).
  exists o, w. split; [done|].
  destruct (CreateChatCompletion_wait_cases _ _ _ _ _ Henc Hwait H)
    as (rs & -> & _ & Hrs & _).
  rewrite slept_run_trace. apply Forall_fmap, Forall_lookup. intros i r Hi.
  destruct (Hrs i r Hi) as [Hr Hcode]. specialize (Hhdr i r Hr Hcode).
  cbn. set (secs := (Atoi _).1) in *.
  unfold int_mul, Duration_mul, Millisecond.
  rewrite (wrap_int_small (secs * 1000))
    by (unfold in_int_range, MinInt, MaxInt; lia).
  rewrite wrap_int_small by (unfold in_int_range, MinInt, MaxInt; lia).
  lia.
Qed.

End ClientRuns.

(** ** The retry-delay parser on every message *)

(** X16. Whenever [extractRetryTime] returns an error, the delay it returns
    with it is 0. *)
Theorem extractRetryTime_error_zero (message : string) (e : error) :
  (extractRetryTime message).2 = Some e -> (extractRetryTime message).1 = 0.
Proof.
  destruct (FindStringSubmatch_spec message)
    as [[Hnil _]|(pre & ds & unit & post & H & _)].
  - unfold extractRetryTime. by rewrite Hnil.
  - rewrite (extractRetryTime_leftmost _ _ _ _ _ H).
    destruct (_ <=? _); [|done]. by destruct (unit_factor unit).
Qed.

(** X17. The result depends on the number and the unit of the leftmost
    match only: the text before and after it does not matter. *)
Theorem extractRetryTime_context_free
    (m1 pre1 post1 m2 pre2 post2 ds unit : string) :
  leftmost_match m1 pre1 ds unit post1 ->
  leftmost_match m2 pre2 ds unit post2 ->
  extractRetryTime m1 = extractRetryTime m2.
Proof.
  intros H1 H2.
  by rewrite (extractRetryTime_leftmost _ _ _ _ _ H1),
             (extractRetryTime_leftmost _ _ _ _ _ H2).
Qed.

Lemma extractRetryTime_error_zero_witness :
  (extractRetryTime "Please try again in 3d.").1 = 0.
Proof.
  apply (extractRetryTime_error_zero _ (ErrUnknownUnit "d")). reflexivity.
Defined.

Lemma extractRetryTime_context_free_witness :
  extractRetryTime "Rate limit reached. Please try again in 7m. Thanks"
  = extractRetryTime "Please try again in 7m.".
Proof.
  apply (extractRetryTime_context_free _ "Rate limit reached. " " Thanks"
           _ "" "" "7" "m");
    (apply leftmost_match_intro; [by repeat split | by vm_compute]).
Defined.

(** ** The properties of runs on sample runs *)

Lemma makeReq_sends_authenticated_post_witness :
  exists hr data,
    [EvSend Sample.wire] = empty_world ++ [EvSend hr] /\
    Sample.always_limited "1" "{}" (length (sent empty_world)) hr
    = inl (Sample.limited_response "1" "{}") /\
    Body (Sample.limited_response "1" "{}") = inl "{}" /\
    Stream (Sample.request false false) = false /\
    @json_Marshal _ Sample.codec (Sample.request false false) = inl data /\
    Method hr = "POST" /\ ReqBody hr = data /\
    @url_Parse _ Sample.codec "https://api.groq.com/openai/v1/chat/completions"
    = inl (URL hr) /\
    Header_Get (ReqHeader hr) "cOnTeNt-TyPe" = "application/json" /\
    Header_Get (ReqHeader hr) "AUTHORIZATION" = "Bearer gsk_key".
Proof.
  destruct (@makeReq_sends_authenticated_post Sample.types Sample.codec
              (Sample.client_with (Sample.always_limited "1" "{}") true 5000)
              (Sample.request false false) empty_world
              (Sample.limited_response "1" "{}") "{}" [EvSend Sample.wire]
              eq_refl)
    as (hr & data & H1 & H2 & H3 & H4 & H5 & H6 & H7 & H8 & Hct & Hauth).
  exists hr, data.
  split; [exact H1|]. split; [exact H2|]. split; [exact H3|].
  split; [exact H4|]. split; [exact H5|]. split; [exact H6|].
  split; [exact H7|]. split; [exact H8|].
  split; [apply Hct | apply Hauth]; reflexivity.
Defined.

Lemma makeReq_unencodable_no_request_witness :
  exists err,
    @makeReq Sample.types Sample.codec
      (Sample.client_with (Sample.always_limited "1" "{}") true 5000)
      (Sample.request false true) empty_world
    = ((None, "", Some err), empty_world).
Proof.
  apply (@makeReq_unencodable_no_request Sample.types Sample.codec).
  right. left. eexists. reflexivity.
Defined.

Lemma NewClient_posts_to_fixed_endpoint_witness :
  (@makeReq Sample.types Sample.codec
     (NewClient "gsk_key" (Sample.refused_from 0) false 0)
     (Sample.request false false) empty_world).2
  = empty_world ++ [EvSend Sample.wire].
Proof.
  apply (@NewClient_posts_to_fixed_endpoint Sample.types Sample.codec);
    reflexivity.
Defined.

Lemma CreateChatCompletion_makeReq_error_panics_witness :
  Sample.run (Sample.client_with (fun _ _ => inl Sample.unreadable_response) true 5000)
    (Sample.request false false)
  = Some (Panic, [EvSend Sample.wire]).
Proof.
  apply (@CreateChatCompletion_makeReq_error_panics Sample.types Sample.codec
           _ _ _ None "" (ErrReadBody "unexpected EOF")).
  reflexivity.
Defined.

Lemma CreateChatCompletion_retry_failure_panics_witness :
  Sample.run (Sample.client_with (Sample.refused_from 2) true 5000)
    (Sample.request false false)
  = Some (Panic,
          run_trace (Sample.client_with (Sample.refused_from 2) true 5000)
            Sample.wire
            [Sample.limited_response "1" "{}"; Sample.limited_response "1" "{}"]).
Proof.
  apply (@CreateChatCompletion_retry_failure_panics Sample.types Sample.codec
           (Sample.client_with (Sample.refused_from 2) true 5000)
           (Sample.request false false) Sample.wire
           (fun _ => (Sample.limited_response "1" "{}", "{}")) 1
           "dial tcp: connection refused").
  - apply sample_encoded.
  - reflexivity.
  - lia.
  - intros i Hi. unfold answers, Sample.client_with, NewClient, Sample.refused_from.
    cbn [httpClient fst snd].
    assert ((i <? 2)%nat = true) as -> by (apply Nat.ltb_lt; lia).
    split; reflexivity.
  - intros i _. split; [reflexivity|]. eexists. reflexivity.
  - reflexivity.
Defined.

Lemma CreateChatCompletion_answered_no_panic_witness :
  exists res w,
    Sample.run (Sample.client_with (Sample.limited_then_ok 3 "1") true 5000)
      (Sample.request false false) = Some (Return res, w).
Proof.
  apply (@CreateChatCompletion_answered_no_panic Sample.types Sample.codec
           _ _ Sample.wire).
  - apply sample_encoded.
  - intros n. unfold answers, Sample.client_with, NewClient, Sample.limited_then_ok.
    cbn [httpClient]. destruct (n <? 3)%nat; eexists _, _; split; reflexivity.
Defined.

Lemma CreateChatCompletion_other_status_witness :
  Sample.run (Sample.client_with
                (fun n _ => if (n <? 2)%nat
                            then inl (Sample.limited_response "1" "{}")
                            else inl (Sample.status_response 500 "<html>"))
                true 5000)
    (Sample.request false false)
  = Some (Return (None, Some (ErrUnmarshalResponse
                          "invalid character '<' looking for beginning of value")),
          run_trace (Sample.client_with
                (fun n _ => if (n <? 2)%nat
                            then inl (Sample.limited_response "1" "{}")
                            else inl (Sample.status_response 500 "<html>"))
                true 5000) Sample.wire
            [Sample.limited_response "1" "{}";
             Sample.limited_response "1" "{}"]) /\
  sent (run_trace (Sample.client_with
                (fun n _ => if (n <? 2)%nat
                            then inl (Sample.limited_response "1" "{}")
                            else inl (Sample.status_response 500 "<html>"))
                true 5000) Sample.wire
            [Sample.limited_response "1" "{}";
             Sample.limited_response "1" "{}"])
  = replicate 3 Sample.wire /\
  length (slept (run_trace (Sample.client_with
                (fun n _ => if (n <? 2)%nat
                            then inl (Sample.limited_response "1" "{}")
                            else inl (Sample.status_response 500 "<html>"))
                true 5000) Sample.wire
            [Sample.limited_response "1" "{}";
             Sample.limited_response "1" "{}"])) = 2%nat.
Proof.
  apply (@CreateChatCompletion_other_status Sample.types Sample.codec
           (Sample.client_with
                (fun n _ => if (n <? 2)%nat
                            then inl (Sample.limited_response "1" "{}")
                            else inl (Sample.status_response 500 "<html>"))
                true 5000)
           (Sample.request false false) Sample.wire
           (fun n => if (n <? 2)%nat
                     then (Sample.limited_response "1" "{}", "{}")
                     else (Sample.status_response 500 "<html>", "<html>")) 2).
  - apply sample_encoded.
  - lia.
  - by right.
  - intros i _. unfold answers, Sample.client_with, NewClient.
    cbn [httpClient]. destruct (i <? 2)%nat; split; reflexivity.
  - intros i Hi. apply Nat.ltb_lt in Hi. rewrite Hi.
    split; [reflexivity|]. eexists. reflexivity.
  - by vm_compute.
Defined.

Lemma CreateChatCompletion_malformed_header_retries_witness :
  exists o rest,
    Sample.run (Sample.client_with
                  (fun _ _ => inl (Sample.status_response 429 "{}")) true 5000)
      (Sample.request false false)
    = Some (o, run_trace (Sample.client_with
                  (fun _ _ => inl (Sample.status_response 429 "{}")) true 5000)
                 Sample.wire [] ++
               [EvPrint (LogRetryAfter 0); EvSleep 0;
                EvPrint LogRetryingNow; EvSend Sample.wire] ++ rest).
Proof.
  apply (@CreateChatCompletion_malformed_header_retries Sample.types Sample.codec
           (Sample.client_with
              (fun _ _ => inl (Sample.status_response 429 "{}")) true 5000)
           (Sample.request false false) Sample.wire
           (fun _ => (Sample.status_response 429 "{}", "{}")) 0 "").
  - apply sample_encoded.
  - reflexivity.
  - lia.
  - intros i _. split; reflexivity.
  - intros i _. split; [reflexivity|]. eexists. reflexivity.
  - reflexivity.
  - by vm_compute.
Defined.

Lemma CreateChatCompletion_no_wait_bad_header_witness :
  Sample.run (Sample.client_with (Sample.always_limited "soon" "{}") false 5000)
    (Sample.request false false)
  = Some (Return (None, Some (ErrParseRetryTime 429 "{}")),
          [EvSend Sample.wire; EvPrint LogSkipWaiting]).
Proof.
  apply (@CreateChatCompletion_no_wait_bad_header Sample.types Sample.codec
           _ _ Sample.wire (Sample.limited_response "soon" "{}") "{}"
           {| ErrorMessage := ""; ErrorType := ""; ErrorCode := "" |}
           0 (NumError "soon" ErrSyntax)).
  - apply sample_encoded.
  - reflexivity.
  - split; reflexivity.
  - reflexivity.
  - reflexivity.
  - reflexivity.
Defined.

Lemma CreateChatCompletion_no_wait_single_request_witness :
  exists o w,
    Sample.run (Sample.client_with (Sample.always_limited "1" "{}") false 5000)
      (Sample.request false false) = Some (o, w) /\
    (length (sent w) <= 1)%nat /\ slept w = [].
Proof.
  apply (@CreateChatCompletion_no_wait_single_request Sample.types Sample.codec).
  reflexivity.
Defined.

Lemma CreateChatCompletion_wait_trace_witness :
  exists o w,
    Sample.run (Sample.client_with (Sample.limited_then_ok 3 "1") true 5000)
      (Sample.request false false) = Some (o, w) /\
    (((forall hr,
         ~ @encoded Sample.types Sample.codec
             (Sample.client_with (Sample.limited_then_ok 3 "1") true 5000)
             (Sample.request false false) hr) /\
      o = Panic /\ w = []) \/
     (exists hr rs,
        @encoded Sample.types Sample.codec
          (Sample.client_with (Sample.limited_then_ok 3 "1") true 5000)
          (Sample.request false false) hr /\
        w = run_trace (Sample.client_with (Sample.limited_then_ok 3 "1") true 5000)
              hr rs /\
        (length rs <= 5)%nat /\
        limited_prefix (Sample.client_with (Sample.limited_then_ok 3 "1") true 5000)
          hr rs)).
Proof.
  apply (@CreateChatCompletion_wait_trace Sample.types Sample.codec).
  reflexivity.
Defined.

Lemma CreateChatCompletion_response_not_limited_witness :
  exists (n : nat) r body,
    length (sent (run_trace
                    (Sample.client_with (Sample.limited_then_ok 1 "1") true 5000)
                    Sample.wire [Sample.limited_response "1" "{}"])) = S n /\
    @answers (Sample.client_with (Sample.limited_then_ok 1 "1") true 5000)
      Sample.wire n r body /\
    StatusCode r <> StatusTooManyRequests /\
    @json_Unmarshal_ChatCompletionResponse _ Sample.codec body
    = inl (@Build_ChatCompletionResponse Sample.types
             "" "" 0 "" "" []
             (@Build_Usage Sample.types 0 0 0 0 0 0)).
Proof.
  apply (@CreateChatCompletion_response_not_limited Sample.types Sample.codec
           (Sample.client_with (Sample.limited_then_ok 1 "1") true 5000)
           (Sample.request false false) Sample.wire).
  - apply sample_encoded.
  - by vm_compute.
Defined.

Lemma CreateChatCompletion_response_xor_error_witness :
  (@None (@ChatCompletionResponse Sample.types) = None /\
   Some (ErrRetryExhausted 6 5 429 "{}"
           (Sample.limited_response "1" "{}")) <> None) \/
  (@None (@ChatCompletionResponse Sample.types) <> None /\
   Some (ErrRetryExhausted 6 5 429 "{}"
           (Sample.limited_response "1" "{}")) = None).
Proof.
  apply (@CreateChatCompletion_response_xor_error Sample.types Sample.codec
           (Sample.client_with (Sample.always_limited "1" "{}") false 5000)
           (Sample.request false false) _ _
           (EvSend Sample.wire :: replicate 5 (EvPrint LogSkipWaiting))).
  by vm_compute.
Defined.

Lemma CreateChatCompletion_sleeps_within_ceiling_witness :
  exists o w,
    Sample.run (Sample.client_with (Sample.limited_then_ok 3 "7") true 5000)
      (Sample.request false false) = Some (o, w) /\
    Forall (fun d => 0 <= d <= 5000 * Millisecond) (slept w).
Proof.
  apply (@CreateChatCompletion_sleeps_within_ceiling Sample.types Sample.codec
           (Sample.client_with (Sample.limited_then_ok 3 "7") true 5000)
           (Sample.request false false) Sample.wire).
  - apply sample_encoded.
  - reflexivity.
  - by vm_compute.
  - intros n r. unfold Sample.client_with, NewClient, Sample.limited_then_ok.
    cbn [httpClient]. destruct (n <? 3)%nat; intros [= <-] _; by vm_compute.
Defined.
